(** * update_blueprint.py: reconciliation endpoints of the VPC-SC demo backend

    A shallow embedding of [backend/update_blueprint.py].  The module decodes
    remote JSON into Python values, edits them in place and sends them back.
    The embedding keeps Python's dynamic behaviour: every decoded value is a
    [json], every operation the module applies to one is defined on all of
    [json], and an operation Python rejects raises the exception Python
    raises.

    Calls that leave the process (token acquisition, HTTP requests, the
    helpers of [status_utilities], object storage) are commands of a small
    free monad; running a view against a world of answers yields the value
    the view hands to Flask and the list of calls it made.  A call always
    answers: a transport failure of [requests] or of the storage client is
    not modelled, and neither is logging.

    The values the module decodes are trees without sharing, so an edit in
    place is modelled by returning the edited value. *)

From Stdlib Require Import ZArith String Ascii List Bool Lia Permutation.
From Stdlib Require Import Floats.PrimFloat.
Import ListNotations.

Set Warnings "-register-all".
Set Implicit Arguments.

Open Scope string_scope.

(** ** Decoded JSON, as [r.json()] and [get_json] hand it to the module

    [None], bool, int, float, str, list and dict.  A str is the sequence of
    its characters. *)

Inductive json : Type :=
| JNull
| JBool (b : bool)
| JInt (z : Z)
| JFloat (f : float)
| JStr (s : string)
| JList (items : list json)
| JObj (fields : list (string * json)).

(** A Python dict keeps its keys in insertion order, which is the order the
    module sends them back in; it is an association list here.  Reading takes
    the first entry of a key; writing replaces that entry where it stands, or
    appends a new one.  A decoded dict has no key twice, and writing keeps
    it so; nothing below depends on it. *)
Definition dict (V : Type) : Type := list (string * V).

Fixpoint dict_get {V} (k : string) (d : dict V) : option V :=
  match d with
  | [] => None
  | (k', v) :: d' => if String.eqb k' k then Some v else dict_get k d'
  end.

Fixpoint dict_set {V} (k : string) (v : V) (d : dict V) : dict V :=
  match d with
  | [] => [(k, v)]
  | (k', v') :: d' =>
      if String.eqb k' k then (k, v) :: d' else (k', v') :: dict_set k v d'
  end.

Definition dict_has {V} (k : string) (d : dict V) : bool :=
  match dict_get k d with Some _ => true | None => false end.

Definition dict_keys {V} (d : dict V) : list string := map fst d.

(** ** Exceptions and the error monad *)

Inductive exn : Type :=
| KeyError (key : string)
| TypeError
| AttributeError
| BadRequestKeyError (key : string)
| JSONDecodeError.

Inductive result (A : Type) : Type :=
| Ok (a : A)
| Raise (e : exn).

Arguments Ok {A} a.
Arguments Raise {A} e.

Definition rbind {A B} (r : result A) (k : A -> result B) : result B :=
  match r with
  | Ok a => k a
  | Raise e => Raise e
  end.

Declare Scope result_scope.
Delimit Scope result_scope with result.
Notation "x <- r ;; k" := (rbind r (fun x => k))
  (at level 61, r at next level, right associativity) : result_scope.
Notation "' p <- r ;; k" := (rbind r (fun x => match x with p => k end))
  (at level 61, p pattern, r at next level, right associativity) : result_scope.
Open Scope result_scope.

(** A [for] loop that threads one local through its body. *)
Fixpoint foldM {A B} (f : A -> B -> result A) (a : A) (l : list B) : result A :=
  match l with
  | [] => Ok a
  | x :: l' => a' <- f a x ;; foldM f a' l'
  end.

(** A [for] loop that edits each element in place. *)
Fixpoint mapM {A B} (f : A -> result B) (l : list A) : result (list B) :=
  match l with
  | [] => Ok []
  | x :: l' => y <- f x ;; ys <- mapM f l' ;; Ok (y :: ys)
  end.

(** ** The Python operations the module uses, on every decoded value *)

(** [v == s] for a str [s]: only a str compares equal to a str. *)
Definition py_eq_str (v : json) (s : string) : bool :=
  match v with
  | JStr s' => String.eqb s' s
  | _ => false
  end.

(** [v == True] and [v == False]: bool is a subtype of int, so the numbers
    one and zero compare equal to them. *)
Definition py_eq_bool (v : json) (b : bool) : bool :=
  match v with
  | JBool b' => Bool.eqb b' b
  | JInt z => Z.eqb z (if b then 1 else 0)
  | JFloat f => PrimFloat.eqb f (if b then 1 else 0)%float
  | _ => false
  end.

(** Truth value of [v] in [if v] and [not v]. *)
Definition truthy (v : json) : bool :=
  match v with
  | JNull => false
  | JBool b => b
  | JInt z => negb (Z.eqb z 0)
  | JFloat f => negb (PrimFloat.eqb f 0%float)
  | JStr s => negb (String.eqb s "")
  | JList l => match l with [] => false | _ => true end
  | JObj d => match d with [] => false | _ => true end
  end.

(** [o[k]] for a str [k]. *)
Definition py_getitem (o : json) (k : string) : result json :=
  match o with
  | JObj d => match dict_get k d with Some v => Ok v | None => Raise (KeyError k) end
  | _ => Raise TypeError
  end.

(** [o[k] = v] for a str [k]. *)
Definition py_setitem (o : json) (k : string) (v : json) : result json :=
  match o with
  | JObj d => Ok (JObj (dict_set k v d))
  | _ => Raise TypeError
  end.

(** [o.get(k, default)]: a method of dict only. *)
Definition py_get (o : json) (k : string) (default : json) : result json :=
  match o with
  | JObj d => match dict_get k d with Some v => Ok v | None => Ok default end
  | _ => Raise AttributeError
  end.

Definition chars (s : string) : list json :=
  map (fun c => JStr (String c EmptyString)) (list_ascii_of_string s).

(** The elements [for x in o] visits: the items of a list, the characters of
    a str, the keys of a dict. *)
Definition py_iter (o : json) : result (list json) :=
  match o with
  | JList l => Ok l
  | JStr s => Ok (chars s)
  | JObj d => Ok (map JStr (dict_keys d))
  | _ => Raise TypeError
  end.

(** [len(o)]. *)
Definition py_len (o : json) : result nat :=
  match o with
  | JList l => Ok (List.length l)
  | JStr s => Ok (String.length s)
  | JObj d => Ok (List.length d)
  | _ => Raise TypeError
  end.

Definition is_substring (needle hay : string) : bool :=
  match String.index 0 needle hay with Some _ => true | None => false end.

(** [k in o] for a str [k]: an item of a list, a substring of a str, a key
    of a dict. *)
Definition py_contains (k : string) (o : json) : result bool :=
  match o with
  | JList l => Ok (existsb (fun v => py_eq_str v k) l)
  | JStr s => Ok (is_substring k s)
  | JObj d => Ok (dict_has k d)
  | _ => Raise TypeError
  end.

(** [o.append(v)]: a method of list only. *)
Definition py_append (o : json) (v : json) : result json :=
  match o with
  | JList l => Ok (JList (l ++ [v]))
  | _ => Raise AttributeError
  end.

(** ** Flask responses, remote answers and the calls a view makes *)

(** The body handed to [flask.Response]: nothing, a text, or the text
    [json.dumps] writes for a value. *)
Inductive body : Type :=
| NoBody
| Text (s : string)
| JsonDumps (v : json).

Record response : Type := Response { status : Z; response_body : body }.

(** What [requests] hands back: [r.status_code], [r.text] and [r.json()]. *)
Record http_response : Type :=
  HttpResponse { status_code : Z; text : string; r_json : result json }.

(** The dict a collaborator of another module returns ([get_token] and the
    helpers of [status_utilities]), as the views read it: an error response
    under ['response'], or its value under a key of its own. *)
Record answer (A : Type) : Type :=
  Answer { ans_response : option response; ans_value : option A }.

Definition has_response {A} (d : answer A) : bool :=
  match ans_response d with Some _ => true | None => false end.

Definition ans_key {A} (key : string) (d : answer A) : result A :=
  match ans_value d with Some a => Ok a | None => Raise (KeyError key) end.

(** What a view hands to Flask: a response, the dict of a helper, the
    exception [flask.abort(code)] raises, or an exception nothing catches. *)
Inductive outcome : Type :=
| Returned (r : response)
| ReturnedAnswer (d : answer string)
| Aborted (code : Z)
| Uncaught (e : exn).

Inductive cmd : Type -> Type :=
| get_token : cmd (answer string)
| requests_get (url : string) (headers : dict string) : cmd http_response
| requests_post (url : string) (headers : dict string) (payload : json) :
    cmd http_response
| requests_patch (url : string) (headers : dict string) (payload : json)
    (params : dict string) : cmd http_response
| get_access_policy_name (token access_policy_title project_id : string) :
    cmd (answer string)
| get_service_perimeter_status (token project_id access_policy_name : string) :
    cmd json
| get_service_perimeter_data_uri (token project_id access_policy_name : string) :
    cmd (answer string)
| get_agents (token project_id region : string) : cmd (answer json)
| get_webhooks (token : string) (agent_name : json) (project_id region : string) :
    cmd (answer json)
| download_as_string (project_id token bucket blob : string) :
    cmd (list Byte.byte).

Inductive prog (A : Type) : Type :=
| Ret (a : A)
| Vis (X : Type) (c : cmd X) (k : X -> prog A).

Arguments Ret {A} a.
Arguments Vis {A X} c k.

Definition world : Type := forall X : Type, cmd X -> X.

Inductive call : Type := Call (X : Type) (c : cmd X).
Arguments Call {X} c.

(** Runs a view in a world: the value it returns and the calls it made, in
    order. *)
Fixpoint run {A} (w : world) (p : prog A) : A * list call :=
  match p with
  | Ret a => (a, [])
  | Vis c k => let (a, t) := run w (k (w _ c)) in (a, Call c :: t)
  end.

Definition is_mutation (c : call) : bool :=
  match c with
  | Call (requests_post _ _ _) => true
  | Call (requests_patch _ _ _ _) => true
  | _ => false
  end.


Declare Scope prog_scope.
Delimit Scope prog_scope with prog.

Definition try {A B} (r : result A) (k : A -> prog B) (h : exn -> B) : prog B :=
  match r with
  | Ok a => k a
  | Raise e => Ret (h e)
  end.

Notation "x <~ c ;; k" := (Vis c (fun x => k))
  (at level 61, c at next level, right associativity) : prog_scope.
Notation "x <! r ;; k" := (try r (fun x => k) Uncaught)
  (at level 61, r at next level, right associativity) : prog_scope.

Fixpoint pbind {A B} (p : prog A) (k : A -> prog B) : prog B :=
  match p with
  | Ret a => k a
  | Vis c h => Vis c (fun x => pbind (h x) k)
  end.

Notation "x <~~ p ;; k" := (pbind p (fun x => k))
  (at level 61, p at next level, right associativity) : prog_scope.

Record request : Type :=
  Request { args : dict string; get_json : json }.

(** [flask.request.args[k]]: a missing key is werkzeug's BadRequestKeyError. *)
Definition args_item (req : request) (k : string) : result string :=
  match dict_get k (args req) with
  | Some v => Ok v
  | None => Raise (BadRequestKeyError k)
  end.

Definition BLOCKED : response :=
  Response 200
    (JsonDumps (JObj [("status", JStr "BLOCKED"); ("reason", JStr "NO_PROJECT_ID")])).

Definition OK200 : response := Response 200 NoBody.

Definition DOMAIN : string := "webhook.internal".
Definition INVOKER : string := "roles/cloudfunctions.invoker".

(** ** The invoker-binding evaluator ([update_webhook_access], lines 60-87) *)

(** Lines 60-64: the scan for ["allUsers"] among the invoker bindings.  The
    role of a binding is only looked up for a member equal to ["allUsers"]. *)
Definition scan_member (binding : json) (found : bool) (member : json) : result bool :=
  if py_eq_str member "allUsers" then
    role <- py_getitem binding "role" ;;
    if py_eq_str role INVOKER then Ok true else Ok found
  else Ok found.

Definition scan_binding (found : bool) (binding : json) : result bool :=
  ms <- py_get binding "members" (JList []) ;;
  members <- py_iter ms ;;
  foldM (scan_member binding) found members.

Definition allUsers_is_invoker_member (policy_dict : json) : result bool :=
  bs <- py_get policy_dict "bindings" (JList []) ;;
  bindings <- py_iter bs ;;
  foldM scan_binding false bindings.

(** Lines 65-68: the condition under which the view returns at once. *)
Definition no_change_needed (internal_only : json) (allUsers_is_invoker : bool) : bool :=
  (negb (truthy internal_only) && allUsers_is_invoker)
  || (truthy internal_only && negb allUsers_is_invoker).

Definition not_allUsers (member : json) : bool := negb (py_eq_str member "allUsers").

(** Lines 75-77: one round of the inner loop.  The loop walks the members it
    was started on, and each round replaces [binding['members']] by a
    filtered copy of what the binding holds by then. *)
Definition strip_round (binding : json) (member : json) : result json :=
  role <- py_getitem binding "role" ;;
  if py_eq_str role INVOKER then
    held <- py_getitem binding "members" ;;
    ms <- py_iter held ;;
    py_setitem binding "members" (JList (filter not_allUsers ms))
  else Ok binding.

Definition strip_binding (binding : json) : result json :=
  ms <- py_get binding "members" (JList []) ;;
  members <- py_iter ms ;;
  foldM strip_round binding members.

(** The loops edit the bindings where they stand, so the policy sees the
    edits when the bindings walked are the items of its own list.  The
    characters of a str and the keys of a dict are fresh values, and without
    a ['bindings'] key the loop ran over a fresh empty list. *)
Definition edited_in_place (policy_dict walked : json) (bindings' : list json) : json :=
  match policy_dict, walked with
  | JObj d, JList _ =>
      if dict_has "bindings" d then JObj (dict_set "bindings" (JList bindings') d)
      else policy_dict
  | _, _ => policy_dict
  end.

(** Lines 74-77. *)
Definition remove_allUsers (policy_dict : json) : result json :=
  bs <- py_get policy_dict "bindings" (JList []) ;;
  bindings <- py_iter bs ;;
  bindings' <- mapM strip_binding bindings ;;
  Ok (edited_in_place policy_dict bs bindings').

Definition fresh_invoker_binding (members : list json) : json :=
  JObj [("role", JStr INVOKER); ("members", JList members)].

(** Lines 82-85: one round of the loop; [invoker_role_exists] is threaded
    through, the binding is edited where it stands. *)
Definition grant_binding (binding : json) : result (bool * json) :=
  role <- py_getitem binding "role" ;;
  if py_eq_str role INVOKER then
    held <- py_getitem binding "members" ;;
    held' <- py_append held (JStr "allUsers") ;;
    binding' <- py_setitem binding "members" held' ;;
    Ok (true, binding')
  else Ok (false, binding).

Fixpoint grant_bindings (invoker_role_exists : bool) (bindings : list json)
  : result (bool * list json) :=
  match bindings with
  | [] => Ok (invoker_role_exists, [])
  | binding :: rest =>
      '(hit, binding') <- grant_binding binding ;;
      '(final, rest') <- grant_bindings (hit || invoker_role_exists) rest ;;
      Ok (final, binding' :: rest')
  end.

(** Lines 79-87. *)
Definition add_allUsers (policy_dict : json) : result json :=
  present <- py_contains "bindings" policy_dict ;;
  empty <- (if present
            then bs <- py_getitem policy_dict "bindings" ;;
                 n <- py_len bs ;; Ok (Nat.eqb n 0)
            else Ok true) ;;
  policy1 <- (if empty
              then py_setitem policy_dict "bindings" (JList [fresh_invoker_binding []])
              else Ok policy_dict) ;;
  bs <- py_getitem policy1 "bindings" ;;
  bindings <- py_iter bs ;;
  '(invoker_role_exists, bindings') <- grant_bindings false bindings ;;
  let policy2 := edited_in_place policy1 bs bindings' in
  if invoker_role_exists then Ok policy2
  else
    bs2 <- py_getitem policy2 "bindings" ;;
    bs3 <- py_append bs2 (fresh_invoker_binding [JStr "allUsers"]) ;;
    py_setitem policy2 "bindings" bs3.

(** The evaluator's verdict: return at once, or send this policy. *)
Inductive decision : Type :=
| NoChange
| Mutate (policy : json).

Definition invoker_binding_evaluator (internal_only policy_dict : json) : result decision :=
  found <- allUsers_is_invoker_member policy_dict ;;
  if no_change_needed internal_only found then Ok NoChange
  else if truthy internal_only
       then policy' <- remove_allUsers policy_dict ;; Ok (Mutate policy')
       else policy' <- add_allUsers policy_dict ;; Ok (Mutate policy').

(** Evaluate, then apply the policy the evaluator computed, if any: the
    policy the function holds afterwards. *)
Definition reconcile_invoker (internal_only policy_dict : json) : result json :=
  verdict <- invoker_binding_evaluator internal_only policy_dict ;;
  match verdict with
  | NoChange => Ok policy_dict
  | Mutate policy' => Ok policy'
  end.

(** ** [update_webhook_access] *)

Definition auth_headers (project_id token : string) : dict string :=
  [("x-goog-user-project", project_id); ("Authorization", "Bearer " ++ token)].

Definition getIamPolicy_url (project_id region webhook_name : string) : string :=
  "https://cloudfunctions.googleapis.com/v2/projects/" ++ project_id
  ++ "/locations/" ++ region ++ "/functions/" ++ webhook_name ++ ":getIamPolicy".

Definition setIamPolicy_url (project_id region webhook_name : string) : string :=
  "https://cloudfunctions.googleapis.com/v1/projects/" ++ project_id
  ++ "/locations/" ++ region ++ "/functions/" ++ webhook_name ++ ":setIamPolicy".

Definition update_webhook_access (req : request) : prog outcome :=
  (token_dict <~ get_token ;;
   match ans_response token_dict with
   | Some resp => Ret (Returned resp)
   | None =>
   token <! ans_key "access_token" token_dict ;;
   internal_only <! py_getitem (get_json req) "status" ;;
   match dict_get "project_id" (args req) with
   | None => Ret (Returned BLOCKED)
   | Some project_id =>
   if String.eqb project_id "" then Ret (Returned BLOCKED) else
   region <! args_item req "region" ;;
   webhook_name <! args_item req "webhook_name" ;;
   let headers := auth_headers project_id token in
   r <~ requests_get (getIamPolicy_url project_id region webhook_name) headers ;;
   if negb (status_code r =? 200)%Z then Ret (Aborted (status_code r)) else
   policy_dict <! r_json r ;;
   verdict <! invoker_binding_evaluator internal_only policy_dict ;;
   match verdict with
   | NoChange => Ret (Returned OK200)
   | Mutate policy' =>
       r <~ requests_post (setIamPolicy_url project_id region webhook_name) headers
              (JObj [("policy", policy')]) ;;
       if negb (status_code r =? 200)%Z then Ret (Aborted (status_code r))
       else Ret (Returned OK200)
   end
   end
   end)%prog.

(** ** [update_webhook_ingress] *)

Definition function_url (project_id region webhook_name : string) : string :=
  "https://cloudfunctions.googleapis.com/v1/projects/" ++ project_id
  ++ "/locations/" ++ region ++ "/functions/" ++ webhook_name.

Definition ingress_headers (project_id token : string) : dict string :=
  [("Content-type", "application/json");
   ("x-goog-user-project", project_id);
   ("Authorization", "Bearer " ++ token)].

(** Lines 110-113. *)
Definition ingress_settings_of (internal_only : json) : string :=
  if truthy internal_only then "ALLOW_INTERNAL_ONLY" else "ALLOW_ALL".

Definition update_webhook_ingress (req : request) : prog outcome :=
  (token_dict <~ get_token ;;
   match ans_response token_dict with
   | Some resp => Ret (Returned resp)
   | None =>
   token <! ans_key "access_token" token_dict ;;
   match dict_get "project_id" (args req) with
   | None => Ret (Returned BLOCKED)
   | Some project_id =>
   if String.eqb project_id "" then Ret (Returned BLOCKED) else
   region <! args_item req "region" ;;
   webhook_name <! args_item req "webhook_name" ;;
   internal_only <! py_getitem (get_json req) "status" ;;
   let ingress_settings := ingress_settings_of internal_only in
   let headers := ingress_headers project_id token in
   r <~ requests_get (function_url project_id region webhook_name) headers ;;
   if negb (status_code r =? 200)%Z
   then Ret (Returned (Response (status_code r) (Text (text r)))) else
   webhook_data <! r_json r ;;
   current <! py_getitem webhook_data "ingressSettings" ;;
   if py_eq_str current ingress_settings then Ret (Returned OK200) else
   webhook_data' <! py_setitem webhook_data "ingressSettings" (JStr ingress_settings) ;;
   r <~ requests_patch (function_url project_id region webhook_name) headers
          webhook_data' [] ;;
   if negb (status_code r =? 200)%Z
   then Ret (Returned (Response (status_code r) (Text (text r))))
   else Ret (Returned OK200)
   end
   end)%prog.

(** ** The service-perimeter views *)

(** [service_perimeter_status['status']['restrictedServices'] = v]: the inner
    dict is edited where it stands. *)
Definition set_restrictedServices (service_perimeter_status st v : json) : result json :=
  st' <- py_setitem st "restrictedServices" v ;;
  py_setitem service_perimeter_status "status" st'.

(** Returns what the function returns ([None], or a response that ends the
    view) and the perimeter as the function leaves it. *)
Definition update_service_perimeter_status_inplace
    (api : string) (restrict_access : json) (service_perimeter_status : json)
  : result (option response * json) :=
  if py_eq_bool restrict_access false then
    st <- py_getitem service_perimeter_status "status" ;;
    present <- py_contains "restrictedServices" st ;;
    if negb present then Ok (Some OK200, service_perimeter_status) else
    services <- py_getitem st "restrictedServices" ;;
    listed <- py_contains api services ;;
    if negb listed then Ok (Some OK200, service_perimeter_status) else
    items <- py_iter services ;;
    sps' <- set_restrictedServices service_perimeter_status st
              (JList (filter (fun service => negb (py_eq_str service api)) items)) ;;
    Ok (None, sps')
  else
    st <- py_getitem service_perimeter_status "status" ;;
    present <- py_contains "restrictedServices" st ;;
    if negb present then
      sps' <- set_restrictedServices service_perimeter_status st (JStr api) ;;
      Ok (None, sps')
    else
      services <- py_getitem st "restrictedServices" ;;
      listed <- py_contains api services ;;
      if listed then Ok (Some OK200, service_perimeter_status) else
      services' <- py_append services (JStr api) ;;
      sps' <- set_restrictedServices service_perimeter_status st services' ;;
      Ok (None, sps').

Definition update_security_perimeter
    (token api : string) (restrict_access : json) (project_id access_policy_name : string)
  : prog outcome :=
  (service_perimeter_status <~
     get_service_perimeter_status token project_id access_policy_name ;;
   evaluated <! update_service_perimeter_status_inplace api restrict_access
                  service_perimeter_status ;;
   match evaluated with
   | (Some resp, _) => Ret (Returned resp)
   | (None, service_perimeter_status') =>
   let headers := auth_headers project_id token in
   response <~ get_service_perimeter_data_uri token project_id access_policy_name ;;
   if has_response response then Ret (ReturnedAnswer response) else
   service_perimeter_data_uri <! ans_key "uri" response ;;
   r <~ requests_patch service_perimeter_data_uri headers service_perimeter_status'
          [("updateMask", "status.restrictedServices")] ;;
   if negb (status_code r =? 200)%Z
   then Ret (Returned (Response (status_code r) (Text (text r))))
   else Ret (Returned OK200)
   end)%prog.

Definition update_security_perimeter_cloudfunctions (req : request) : prog outcome :=
  (token_dict <~ get_token ;;
   match ans_response token_dict with
   | Some resp => Ret (Returned resp)
   | None =>
   token <! ans_key "access_token" token_dict ;;
   match dict_get "project_id" (args req) with
   | None => Ret (Returned BLOCKED)
   | Some project_id =>
   if String.eqb project_id "" then Ret (Returned BLOCKED) else
   access_policy_title <! args_item req "access_policy_title" ;;
   response <~ get_access_policy_name token access_policy_title project_id ;;
   match ans_response response with
   | Some resp => Ret (Returned resp)
   | None =>
   access_policy_name <! ans_key "access_policy_name" response ;;
   restrict_access <! py_getitem (get_json req) "status" ;;
   update_security_perimeter token "cloudfunctions.googleapis.com" restrict_access
     project_id access_policy_name
   end
   end
   end)%prog.

Definition update_security_perimeter_dialogflow (req : request) : prog outcome :=
  (token_dict <~ get_token ;;
   match ans_response token_dict with
   | Some resp => Ret (Returned resp)
   | None =>
   token <! ans_key "access_token" token_dict ;;
   match dict_get "project_id" (args req) with
   | None => Ret (Returned BLOCKED)
   | Some project_id =>
   if String.eqb project_id "" then Ret (Returned BLOCKED) else
   access_policy_title <! args_item req "access_policy_title" ;;
   response <~ get_access_policy_name token access_policy_title project_id ;;
   match ans_response response with
   | Some resp => Ret (Returned resp)
   | None =>
   access_policy_name <! ans_key "access_policy_name" response ;;
   restrict_access <! py_getitem (get_json req) "status" ;;
   update_security_perimeter token "dialogflow.googleapis.com" restrict_access
     project_id access_policy_name
   end
   end
   end)%prog.

(** ** [update_service_directory_webhook_fulfillment] *)

Definition b64_alphabet : list ascii :=
  list_ascii_of_string
    "ABCDEFGHIJKLMNOPQRSTUVWXYZabcdefghijklmnopqrstuvwxyz0123456789+/".

Definition b64_digit (n : N) : ascii := nth (N.to_nat n) b64_alphabet "="%char.

(** [base64.b64encode]: three bytes to four digits, the tail padded. *)
Fixpoint b64encode (msg_bytes : list Byte.byte) : string :=
  match msg_bytes with
  | [] => ""
  | [x] =>
      let a := Byte.to_N x in
      String (b64_digit (a / 4)) (String (b64_digit ((a mod 4) * 16)) "==")
  | [x; y] =>
      let a := Byte.to_N x in
      let b := Byte.to_N y in
      String (b64_digit (a / 4))
        (String (b64_digit ((a mod 4) * 16 + b / 16))
           (String (b64_digit ((b mod 16) * 4)) "="))
  | x :: y :: z :: rest =>
      let a := Byte.to_N x in
      let b := Byte.to_N y in
      let c := Byte.to_N z in
      String (b64_digit (a / 4))
        (String (b64_digit ((a mod 4) * 16 + b / 16))
           (String (b64_digit ((b mod 16) * 4 + c / 64))
              (String (b64_digit (c mod 64)) (b64encode rest))))
  end%N.

Definition b64Encode (msg_bytes : list Byte.byte) : string := b64encode msg_bytes.

(** Lines 224-227. *)
Definition fulfillment_of (content_status : json) : string :=
  if py_eq_bool content_status true then "service-directory" else "generic-web-service".

(** Lines 248-269: the body of the PATCH, or the response that ends the view. *)
Definition webhook_payload
    (fulfillment token project_id region bucket webhook_trigger_uri : string)
  : prog (outcome + json) :=
  (if String.eqb fulfillment "generic-web-service" then
     Ret (inr (JObj [("displayName", JStr "cxPrebuiltAgentsTelecom");
                     ("genericWebService", JObj [("uri", JStr webhook_trigger_uri)])]))
   else if String.eqb fulfillment "service-directory" then
     allowed_ca_cert <~ download_as_string project_id token bucket "server.der" ;;
     Ret (inr (JObj
       [("displayName", JStr "cxPrebuiltAgentsTelecom");
        ("serviceDirectory", JObj
           [("service", JStr ("projects/" ++ project_id ++ "/locations/" ++ region
                              ++ "/namespaces/df-namespace/services/df-service"));
            ("genericWebService", JObj
               [("uri", JStr ("https://" ++ DOMAIN));
                ("allowedCaCerts", JList [JStr (b64Encode allowed_ca_cert)])])])]))
   else
     Ret (inl (Returned (Response 500
                 (Text ("Unexpected setting for fulfillment: " ++ fulfillment))))))%prog.

Section Fulfillment.

(** How an f-string renders a decoded value: [format(v)].  A resource name
    is a str, rendered as itself; this development fixes nothing about the
    rendering of other values. *)
Variable py_format : json -> string.

Definition update_service_directory_webhook_fulfillment (req : request) : prog outcome :=
  (token_dict <~ get_token ;;
   match ans_response token_dict with
   | Some resp => Ret (Returned resp)
   | None =>
   token <! ans_key "access_token" token_dict ;;
   content_status <! py_getitem (get_json req) "status" ;;
   let fulfillment := fulfillment_of content_status in
   match dict_get "project_id" (args req) with
   | None => Ret (Returned BLOCKED)
   | Some project_id =>
   if String.eqb project_id "" then Ret (Returned BLOCKED) else
   bucket <! args_item req "bucket" ;;
   region <! args_item req "region" ;;
   webhook_name <! args_item req "webhook_name" ;;
   let webhook_trigger_uri :=
     "https://" ++ region ++ "-" ++ project_id ++ ".cloudfunctions.net/" ++ webhook_name in
   result <~ get_agents token project_id region ;;
   match ans_response result with
   | Some resp => Ret (Returned resp)
   | None =>
   agents <! ans_key "data" result ;;
   agent <! py_getitem agents "Telecommunications" ;;
   agent_name <! py_getitem agent "name" ;;
   result <~ get_webhooks token agent_name project_id region ;;
   match ans_response result with
   | Some resp => Ret (Returned resp)
   | None =>
   webhooks <! ans_key "data" result ;;
   webhook_dict <! py_getitem webhooks "cxPrebuiltAgentsTelecom" ;;
   webhook_name <! py_getitem webhook_dict "name" ;;
   built <~~ webhook_payload fulfillment token project_id region bucket
               webhook_trigger_uri ;;
   match built with
   | inl early => Ret early
   | inr data =>
   let headers := auth_headers project_id token in
   r <~ requests_patch
          ("https://" ++ region ++ "-dialogflow.googleapis.com/v3/"
           ++ py_format webhook_name)
          headers data [] ;;
   if negb (status_code r =? 200)%Z then Ret (Aborted (status_code r))
   else Ret (Returned OK200)
   end
   end
   end
   end
   end)%prog.

End Fulfillment.

(** ** What the properties speak of *)

(** A binding of an IAM policy: a dict that carries a ['role'] key and whose
    ['members'], when it has any, is a list. *)
Definition is_binding (b : json) : bool :=
  match b with
  | JObj d =>
      dict_has "role" d
      && match dict_get "members" d with
         | None | Some (JList _) => true
         | Some _ => false
         end
  | _ => false
  end.

(** An IAM policy: a dict whose ['bindings'], when it has any, is a list of
    bindings. *)
Definition is_policy (P : json) : bool :=
  match P with
  | JObj d =>
      match dict_get "bindings" d with
      | None => true
      | Some (JList bs) => forallb is_binding bs
      | Some _ => false
      end
  | _ => false
  end.

(** A policy each of whose bindings carries its ['members'] as well. *)
Definition has_members (b : json) : bool :=
  match b with
  | JObj d => dict_has "members" d
  | _ => false
  end.

Definition is_full_policy (P : json) : bool :=
  is_policy P
  && match P with
     | JObj d =>
         match dict_get "bindings" d with
         | Some (JList bs) => forallb has_members bs
         | _ => true
         end
     | _ => false
     end.

(** ["allUsers"] is a member of this binding, and the binding is for the
    invoker role. *)
Definition grants_allUsers (b : json) : bool :=
  match b with
  | JObj d =>
      match dict_get "role" d, dict_get "members" d with
      | Some role, Some (JList ms) =>
          py_eq_str role INVOKER && existsb (fun m => py_eq_str m "allUsers") ms
      | _, _ => false
      end
  | _ => false
  end.

(** ["allUsers"] is a member of some invoker binding of the policy. *)
Definition allUsersIsInvoker (P : json) : bool :=
  match P with
  | JObj d =>
      match dict_get "bindings" d with
      | Some (JList bs) => existsb grants_allUsers bs
      | _ => false
      end
  | _ => false
  end.

(** The calls of a view that gets as far as its first request and no
    further. *)
Definition fetched_only (url : string) (headers : dict string) : list call :=
  [Call get_token; Call (requests_get url headers)].

(** Token acquisition succeeds, the query names a project, a region and a
    webhook, and the body carries a status. *)
Record webhook_request (w : world) (req : request)
    (token project_id region webhook_name : string) (content_status : json) : Prop :=
  WebhookRequest {
    wr_token : w _ get_token = Answer None (Some token);
    wr_project : dict_get "project_id" (args req) = Some project_id;
    wr_project_named : project_id <> "";
    wr_region : dict_get "region" (args req) = Some region;
    wr_webhook : dict_get "webhook_name" (args req) = Some webhook_name;
    wr_status : py_getitem (get_json req) "status" = Ok content_status
  }.

(** The restricted services of a perimeter; a perimeter that lists none has
    none. *)
Definition restricted_services (S : json) : list json :=
  match S with
  | JObj d =>
      match dict_get "status" d with
      | Some (JObj st) =>
          match dict_get "restrictedServices" st with
          | Some (JList l) => l
          | _ => []
          end
      | _ => []
      end
  | _ => []
  end.

Fixpoint dict_remove {V} (k : string) (d : dict V) : dict V :=
  match d with
  | [] => []
  | (k', v) :: d' =>
      if String.eqb k' k then dict_remove k d' else (k', v) :: dict_remove k d'
  end.

(** The perimeter without its list of restricted services. *)
Definition other_fields (S : json) : json :=
  match S with
  | JObj d =>
      match dict_get "status" d with
      | Some (JObj st) =>
          JObj (dict_set "status" (JObj (dict_remove "restrictedServices" st)) d)
      | _ => S
      end
  | _ => S
  end.

(** Equal up to the order of the restricted services. *)
Definition same_up_to_order (S1 S2 : json) : Prop :=
  Permutation (restricted_services S1) (restricted_services S2)
  /\ other_fields S1 = other_fields S2.

(** The perimeter evaluator asked to add [api], then asked to remove it. *)
Definition add_then_remove (api : string) (S : json) : result json :=
  '(_, S1) <- update_service_perimeter_status_inplace api (JBool true) S ;;
  '(_, S2) <- update_service_perimeter_status_inplace api (JBool false) S1 ;;
  Ok S2.

(** A loop body that threads a flag either raises whatever the flag, or
    raises the flag by an amount of its own. *)
Definition flag_shape (g : bool -> result bool) : Prop :=
  (exists e, forall f, g f = Raise e) \/ (exists h, forall f, g f = Ok (f || h)).

(** A binding the scan passes over without raising and without a find. *)
Definition passed_over (b : json) : Prop := forall f, scan_binding f b = Ok f.

Definition is_str (v : json) : bool :=
  match v with JStr _ => true | _ => false end.

(** ** Worlds and requests to run the views on *)

Record answers : Type :=
  Answers {
    on_token : answer string;
    on_get : http_response;
    on_post : http_response;
    on_patch : http_response;
    on_policy_name : answer string;
    on_perimeter : json;
    on_data_uri : answer string;
    on_agents : answer json;
    on_webhooks : answer json;
    on_blob : list Byte.byte
  }.

Definition world_of (a : answers) : world :=
  fun X c =>
    match c in cmd T return T with
    | get_token => on_token a
    | requests_get _ _ => on_get a
    | requests_post _ _ _ => on_post a
    | requests_patch _ _ _ _ => on_patch a
    | get_access_policy_name _ _ _ => on_policy_name a
    | get_service_perimeter_status _ _ _ => on_perimeter a
    | get_service_perimeter_data_uri _ _ _ => on_data_uri a
    | get_agents _ _ _ => on_agents a
    | get_webhooks _ _ _ _ => on_webhooks a
    | download_as_string _ _ _ _ => on_blob a
    end.

Definition accepted : http_response := HttpResponse 200 "{}" (Ok (JObj [])).

Definition public_policy : json :=
  JObj [("bindings", JList [fresh_invoker_binding [JStr "allUsers"]])].

(** An invoker binding that lists no members at all. *)
Definition memberless_policy : json :=
  JObj [("bindings", JList [JObj [("role", JStr INVOKER)]])].

Definition answers_for (fetched : http_response) : answers :=
  {| on_token := Answer None (Some "t0");
     on_get := fetched;
     on_post := accepted;
     on_patch := accepted;
     on_policy_name := Answer None (Some "accessPolicies/1");
     on_perimeter := JObj [("status", JObj [])];
     on_data_uri := Answer None (Some "https://accesscontextmanager.googleapis.com/v1/p");
     on_agents := Answer None (Some (JObj []));
     on_webhooks := Answer None (Some (JObj []));
     on_blob := [] |}.

Definition denied : http_response :=
  HttpResponse 403 "denied" (Ok (JObj [("error", JStr "denied")])).

(** A world whose function is publicly invokable, and one whose control
    plane turns every request down. *)
Definition public_world : world :=
  world_of (answers_for (HttpResponse 200 "" (Ok public_policy))).

Definition denying_world : world := world_of (answers_for denied).

(** A function open to all traffic, and a world that serves it. *)
Definition open_function : dict json :=
  [("name", JStr "projects/p1/locations/us-central1/functions/hook");
   ("ingressSettings", JStr "ALLOW_ALL");
   ("runtime", JStr "python39")].

Definition open_world : world :=
  world_of (answers_for (HttpResponse 200 "" (Ok (JObj open_function)))).

(** A perimeter that already restricts Cloud Functions. *)
Definition restricting_perimeter : json :=
  JObj [("name", JStr "accessPolicies/1/servicePerimeters/demo");
        ("status",
         JObj [("resources", JList [JStr "projects/1"]);
               ("restrictedServices",
                JList [JStr "cloudfunctions.googleapis.com";
                       JStr "storage.googleapis.com"])])].

Definition webhook_args : dict string :=
  [("project_id", "p1"); ("region", "us-central1"); ("webhook_name", "hook")].

Definition set_status (d : bool) (query : dict string) : request :=
  Request query (JObj [("status", JBool d)]).

(** ** Further worlds *)

(** A world in which token acquisition fails with this response. *)
Definition refusing_world (resp : response) : world :=
  fun X c =>
    match c in cmd T return T with
    | get_token => Answer (Some resp) None
    | c' => world_of (answers_for accepted) c'
    end.

Definition unauthorized : response := Response 401 (Text "no session").

(** A world that serves the public policy and turns the setIamPolicy
    request down. *)
Definition read_only_world : world :=
  fun X c =>
    match c in cmd T return T with
    | requests_post _ _ _ => denied
    | c' => public_world c'
    end.

(** A world that serves the open function and turns the PATCH down. *)
Definition frozen_world : world :=
  fun X c =>
    match c in cmd T return T with
    | requests_patch _ _ _ _ => denied
    | c' => open_world c'
    end.

(** ** The bindings after a mutation, in closed form *)

(** The binding with ["allUsers"] filtered out of its members, when it is an
    invoker binding; the binding itself otherwise. *)
Definition without_allUsers (b : json) : json :=
  match b with
  | JObj d =>
      match dict_get "role" d, dict_get "members" d with
      | Some role, Some (JList ms) =>
          if py_eq_str role INVOKER
          then JObj (dict_set "members" (JList (filter not_allUsers ms)) d)
          else b
      | _, _ => b
      end
  | _ => b
  end.

(** The binding with ["allUsers"] appended to its members, when it is an
    invoker binding; the binding itself otherwise. *)
Definition with_allUsers (b : json) : json :=
  match b with
  | JObj d =>
      match dict_get "role" d, dict_get "members" d with
      | Some role, Some (JList ms) =>
          if py_eq_str role INVOKER
          then JObj (dict_set "members" (JList (ms ++ [JStr "allUsers"])) d)
          else b
      | _, _ => b
      end
  | _ => b
  end.

Definition is_invoker_binding (b : json) : bool :=
  match b with
  | JObj d =>
      match dict_get "role" d with
      | Some role => py_eq_str role INVOKER
      | None => false
      end
  | _ => false
  end.

(** A policy as the control plane may serve it: a version tag, a viewer
    binding, and an invoker binding for one service account. *)
Definition tagged_policy : json :=
  JObj [("version", JInt 1);
        ("etag", JStr "BwYJ");
        ("bindings",
         JList [JObj [("role", JStr "roles/viewer");
                      ("members", JList [JStr "allUsers"; JStr "user:a@example.com"])];
                JObj [("role", JStr INVOKER);
                      ("members", JList [JStr "serviceAccount:sa@example.com"])]])].

(** Bindings in which "allUsers" views and, twice over, invokes; and
    bindings with the invoker role twice and "allUsers" nowhere. *)
Definition public_bindings : list json :=
  [JObj [("role", JStr "roles/viewer"); ("members", JList [JStr "allUsers"])];
   JObj [("role", JStr INVOKER);
         ("members", JList [JStr "allUsers"; JStr "user:a@example.com"; JStr "allUsers"])]].

Definition private_bindings : list json :=
  [fresh_invoker_binding [JStr "user:a@example.com"];
   JObj [("role", JStr "roles/viewer"); ("members", JList [])];
   fresh_invoker_binding []].

Definition policy_fields (bs : list json) : dict json :=
  [("etag", JStr "BwYJ"); ("bindings", JList bs)].

(** A world for the perimeter views: the perimeter it serves, what the
    data-uri helper answers, and what the control plane says to a PATCH. *)
Definition perimeter_world (S : json) (uri : answer string) (patched : http_response)
  : world :=
  world_of
    {| on_token := Answer None (Some "t0");
       on_get := accepted;
       on_post := accepted;
       on_patch := patched;
       on_policy_name := Answer None (Some "accessPolicies/1");
       on_perimeter := S;
       on_data_uri := uri;
       on_agents := Answer None (Some (JObj []));
       on_webhooks := Answer None (Some (JObj []));
       on_blob := [] |}.

Definition perimeter_uri : string :=
  "https://accesscontextmanager.googleapis.com/v1/accessPolicies/1/servicePerimeters/demo".

Definition perimeter_args : dict string :=
  [("project_id", "p1"); ("access_policy_title", "demo-policy")].

(** ** The fulfillment view's request *)

(** Token acquisition succeeds, the query names a project, a bucket, a
    region and a webhook, the body carries a status, the agents helper finds
    the Telecommunications agent and the webhooks helper finds the webhook
    cxPrebuiltAgentsTelecom of that agent. *)
Record fulfillment_request (w : world) (req : request)
    (token project_id bucket region webhook_name : string)
    (content_status agent_name resolved_name : json) : Prop :=
  FulfillmentRequest {
    fr_token : w _ get_token = Answer None (Some token);
    fr_status : py_getitem (get_json req) "status" = Ok content_status;
    fr_project : dict_get "project_id" (args req) = Some project_id;
    fr_project_named : project_id <> "";
    fr_bucket : dict_get "bucket" (args req) = Some bucket;
    fr_region : dict_get "region" (args req) = Some region;
    fr_webhook : dict_get "webhook_name" (args req) = Some webhook_name;
    fr_agents :
      exists agents agent,
        w _ (get_agents token project_id region) = Answer None (Some agents)
        /\ py_getitem agents "Telecommunications" = Ok agent
        /\ py_getitem agent "name" = Ok agent_name;
    fr_webhooks :
      exists webhooks webhook_dict,
        w _ (get_webhooks token agent_name project_id region)
        = Answer None (Some webhooks)
        /\ py_getitem webhooks "cxPrebuiltAgentsTelecom" = Ok webhook_dict
        /\ py_getitem webhook_dict "name" = Ok resolved_name
  }.

(** The body of the PATCH for the direct trigger, and for the service
    directory. *)
Definition generic_web_service (webhook_trigger_uri : string) : json :=
  JObj [("displayName", JStr "cxPrebuiltAgentsTelecom");
        ("genericWebService", JObj [("uri", JStr webhook_trigger_uri)])].

Definition service_directory (project_id region : string) (cert : list Byte.byte) : json :=
  JObj [("displayName", JStr "cxPrebuiltAgentsTelecom");
        ("serviceDirectory", JObj
           [("service", JStr ("projects/" ++ project_id ++ "/locations/" ++ region
                              ++ "/namespaces/df-namespace/services/df-service"));
            ("genericWebService", JObj
               [("uri", JStr "https://webhook.internal");
                ("allowedCaCerts", JList [JStr (b64Encode cert)])])])].

(** A world for the fulfillment view: one agent, one webhook, a two-byte
    certificate. *)
Definition telecom_world : world :=
  world_of
    {| on_token := Answer None (Some "t0");
       on_get := accepted;
       on_post := accepted;
       on_patch := accepted;
       on_policy_name := Answer None (Some "accessPolicies/1");
       on_perimeter := JObj [("status", JObj [])];
       on_data_uri := Answer None None;
       on_agents :=
         Answer None
           (Some (JObj [("Telecommunications",
                         JObj [("name", JStr "projects/p1/locations/r1/agents/a1")])]));
       on_webhooks :=
         Answer None
           (Some (JObj [("cxPrebuiltAgentsTelecom",
                         JObj [("name",
                                JStr "projects/p1/locations/r1/agents/a1/webhooks/w1")])]));
       on_blob := [Byte.x4d; Byte.x61] |}.

Definition fulfillment_args : dict string :=
  [("project_id", "p1"); ("bucket", "b1"); ("region", "r1"); ("webhook_name", "hook")].

Definition render_name (v : json) : string :=
  match v with JStr s => s | _ => "" end.

(** ** Bindings that miss a key *)

(** A dict whose ['members'], when it has any, is a list; it may lack its
    ['role']. *)
Definition is_loose_binding (b : json) : bool :=
  match b with
  | JObj d =>
      match dict_get "members" d with
      | None | Some (JList _) => true
      | Some _ => false
      end
  | _ => false
  end.

Definition has_role (b : json) : bool :=
  match b with
  | JObj d => dict_has "role" d
  | _ => false
  end.

Definition lists_allUsers (b : json) : bool :=
  match b with
  | JObj d =>
      match dict_get "members" d with
      | Some (JList ms) => existsb (fun m => py_eq_str m "allUsers") ms
      | _ => false
      end
  | _ => false
  end.

(** An invoker binding without a ['members'] key. *)
Definition memberless_invoker (b : json) : bool :=
  is_invoker_binding b && negb (has_members b).


(** * Properties *)

Unset Implicit Arguments.

(** ** Dicts *)

Section DictFacts.

Context {V : Type}.
Implicit Types (d : dict V) (k : string) (v : V).

Lemma dict_get_set_same d k v : dict_get k (dict_set k v d) = Some v.
Proof.
  induction d as [|[k' v'] d IH]; cbn.
  - now rewrite String.eqb_refl.
  - destruct (String.eqb k' k) eqn:E; cbn.
    + now rewrite String.eqb_refl.
    + now rewrite E.
Qed.

Lemma dict_get_set_other d k k' v :
  k <> k' -> dict_get k' (dict_set k v d) = dict_get k' d.
Proof.
  intros Hne. induction d as [|[k0 v0] d IH]; cbn.
  - apply String.eqb_neq in Hne. now rewrite Hne.
  - destruct (String.eqb k0 k) eqn:E; cbn.
    + apply String.eqb_eq in E. subst k0.
      apply String.eqb_neq in Hne. now rewrite Hne.
    + destruct (String.eqb k0 k'); [reflexivity | apply IH].
Qed.

Lemma dict_set_keys d k v v0 :
  dict_get k d = Some v0 -> dict_keys (dict_set k v d) = dict_keys d.
Proof.
  unfold dict_keys. induction d as [|[k' v'] d IH]; cbn; [discriminate|].
  destruct (String.eqb k' k) eqn:E; cbn; intros H.
  - apply String.eqb_eq in E. now subst.
  - now rewrite IH.
Qed.

Lemma dict_set_set d k v v' : dict_set k v (dict_set k v' d) = dict_set k v d.
Proof.
  induction d as [|[k0 v0] d IH]; cbn.
  - now rewrite String.eqb_refl.
  - destruct (String.eqb k0 k) eqn:E; cbn.
    + now rewrite String.eqb_refl.
    + now rewrite E, IH.
Qed.

Lemma dict_set_get d k v : dict_get k d = Some v -> dict_set k v d = d.
Proof.
  induction d as [|[k0 v0] d IH]; cbn; [discriminate|].
  destruct (String.eqb k0 k) eqn:E; intros H.
  - apply String.eqb_eq in E. injection H as ->. now subst.
  - now rewrite IH.
Qed.

End DictFacts.

(** ** Running a view *)

Lemma run_vis {A X} (w : world) (c : cmd X) (k : X -> prog A) :
  run w (Vis c k) = (fst (run w (k (w _ c))), Call c :: snd (run w (k (w _ c)))).
Proof. cbn [run]. now destruct (run w (k (w X c))). Qed.

Lemma run_pbind {A B} (w : world) (p : prog A) (k : A -> prog B) :
  run w (pbind p k)
  = (fst (run w (k (fst (run w p)))),
     (snd (run w p) ++ snd (run w (k (fst (run w p)))))%list).
Proof.
  induction p as [a | X c h IH]; cbn [pbind].
  - cbn. now destruct (run w (k a)).
  - rewrite !run_vis. cbn [fst snd]. rewrite IH. reflexivity.
Qed.

(** ** The scan of the invoker bindings *)

Lemma scan_members_role d role ms found :
  dict_get "role" d = Some role ->
  foldM (scan_member (JObj d)) found ms
  = Ok (found || (py_eq_str role INVOKER
                  && existsb (fun m => py_eq_str m "allUsers") ms)).
Proof.
  intros Hrole. revert found.
  induction ms as [|m ms IH]; intros found; cbn [foldM existsb].
  - now rewrite andb_false_r, orb_false_r.
  - unfold scan_member at 1. cbn [py_getitem]. rewrite Hrole.
    destruct (py_eq_str m "allUsers"); cbn [rbind orb].
    + destruct (py_eq_str role INVOKER); cbn [andb rbind]; rewrite IH; cbn.
      * now rewrite orb_true_r.
      * now rewrite orb_false_r.
    + rewrite IH. reflexivity.
Qed.

Lemma scan_binding_spec b found :
  is_binding b = true -> scan_binding found b = Ok (found || grants_allUsers b).
Proof.
  destruct b as [| | | | |?|d]; try discriminate. cbn [is_binding].
  unfold dict_has. destruct (dict_get "role" d) as [role|] eqn:Hrole; [|discriminate].
  cbn [andb]. unfold scan_binding, grants_allUsers. cbn [py_get]. rewrite Hrole.
  destruct (dict_get "members" d) as [[| | | | |ms|]|]; try discriminate; intros _; cbn.
  - now apply scan_members_role.
  - now rewrite orb_false_r.
Qed.

Lemma scan_bindings_spec bs found :
  forallb is_binding bs = true ->
  foldM scan_binding found bs = Ok (found || existsb grants_allUsers bs).
Proof.
  revert found. induction bs as [|b bs IH]; intros found; cbn [forallb foldM existsb].
  - intros _. now rewrite orb_false_r.
  - intros [Hb Hbs]%andb_prop. rewrite (scan_binding_spec _ found Hb). cbn [rbind].
    rewrite (IH _ Hbs). now rewrite orb_assoc.
Qed.

(** On an IAM policy the scan does not raise and finds what the property
    speaks of. *)
Lemma scan_policy_spec P :
  is_policy P = true -> allUsers_is_invoker_member P = Ok (allUsersIsInvoker P).
Proof.
  destruct P as [| | | | |?|d]; try discriminate.
  unfold is_policy, allUsers_is_invoker_member, allUsersIsInvoker. cbn [py_get].
  destruct (dict_get "bindings" d) as [[| | | | |bs|]|]; try discriminate; cbn.
  - intros H. now rewrite (scan_bindings_spec _ false H).
  - reflexivity.
Qed.

Lemma no_change_needed_bool d found :
  no_change_needed (JBool d) found = (negb d && found) || (d && negb found).
Proof. reflexivity. Qed.

(** The evaluator returns at once exactly when the condition of lines 65-68
    holds of what the scan found. *)
Lemma evaluator_no_change v P found :
  allUsers_is_invoker_member P = Ok found ->
  invoker_binding_evaluator v P = Ok NoChange <-> no_change_needed v found = true.
Proof.
  intros Hscan. unfold invoker_binding_evaluator. rewrite Hscan. cbn [rbind].
  destruct (no_change_needed v found); [tauto|].
  split; [|discriminate].
  destruct (truthy v).
  - destruct (remove_allUsers P); discriminate.
  - destruct (add_allUsers P); discriminate.
Qed.

(** ** [update_webhook_access], run *)

Lemma run_update_webhook_access w req token project_id region webhook_name v txt P :
  webhook_request w req token project_id region webhook_name v ->
  w _ (requests_get (getIamPolicy_url project_id region webhook_name)
         (auth_headers project_id token)) = HttpResponse 200 txt (Ok P) ->
  run w (update_webhook_access req)
  = match invoker_binding_evaluator v P with
    | Raise e =>
        (Uncaught e,
         fetched_only (getIamPolicy_url project_id region webhook_name)
           (auth_headers project_id token))
    | Ok NoChange =>
        (Returned OK200,
         fetched_only (getIamPolicy_url project_id region webhook_name)
           (auth_headers project_id token))
    | Ok (Mutate P') =>
        let post := requests_post (setIamPolicy_url project_id region webhook_name)
                      (auth_headers project_id token) (JObj [("policy", P')]) in
        (if negb (status_code (w _ post) =? 200)%Z
         then Aborted (status_code (w _ post)) else Returned OK200,
         [Call get_token;
          Call (requests_get (getIamPolicy_url project_id region webhook_name)
                  (auth_headers project_id token));
          Call post])
    end.
Proof.
  intros [Htok Hproj Hne Hreg Hhook Hst] Hget.
  unfold update_webhook_access. rewrite run_vis, Htok. cbn [ans_response ans_key ans_value try].
  rewrite Hst. cbn [try]. rewrite Hproj.
  apply String.eqb_neq in Hne. rewrite Hne.
  unfold args_item. rewrite Hreg, Hhook. cbn [try].
  rewrite run_vis, Hget. cbn [status_code r_json negb Z.eqb Pos.eqb try fst snd].
  destruct (invoker_binding_evaluator v P) as [[|P']|e]; cbn [try].
  - reflexivity.
  - rewrite run_vis. cbn [fst snd].
    destruct (negb (status_code _ =? 200)%Z); reflexivity.
  - reflexivity.
Qed.

(** ** The scan after a mutation *)

Lemma foldM_shape {B} (g : bool -> B -> result bool) (l : list B) :
  (forall x, flag_shape (fun f => g f x)) ->
  flag_shape (fun f => foldM g f l).
Proof.
  intros Hg. induction l as [|x l IH]; cbn [foldM].
  - right. exists false. intros f. now rewrite orb_false_r.
  - destruct (Hg x) as [[e He]|[h Hh]].
    + left. exists e. intros f. now rewrite He.
    + destruct IH as [[e He]|[h' Hh']].
      * left. exists e. intros f. rewrite Hh. cbn [rbind]. apply He.
      * right. exists (h || h'). intros f. rewrite Hh. cbn [rbind].
        rewrite Hh'. now rewrite orb_assoc.
Qed.

Lemma scan_member_shape b m : flag_shape (fun f => scan_member b f m).
Proof.
  unfold scan_member. destruct (py_eq_str m "allUsers").
  - destruct (py_getitem b "role") as [role|e]; cbn [rbind].
    + destruct (py_eq_str role INVOKER).
      * right. exists true. intros f. now rewrite orb_true_r.
      * right. exists false. intros f. now rewrite orb_false_r.
    + left. now exists e.
  - right. exists false. intros f. now rewrite orb_false_r.
Qed.

Lemma scan_binding_shape b : flag_shape (fun f => scan_binding f b).
Proof.
  unfold scan_binding.
  destruct (py_get b "members" (JList [])) as [ms|e]; cbn [rbind].
  - destruct (py_iter ms) as [members|e]; cbn [rbind].
    + apply foldM_shape. intros m. apply scan_member_shape.
    + left. now exists e.
  - left. now exists e.
Qed.

Lemma passed_over_of_false b : scan_binding false b = Ok false -> passed_over b.
Proof.
  intros H. destruct (scan_binding_shape b) as [[e He]|[h Hh]].
  - rewrite He in H. discriminate.
  - rewrite Hh in H. injection H as ->. intros f. rewrite Hh. now rewrite orb_false_r.
Qed.

Lemma scan_false_passed_over bs :
  foldM scan_binding false bs = Ok false -> Forall passed_over bs.
Proof.
  induction bs as [|b bs IH]; cbn [foldM]; intros H; [constructor|].
  destruct (scan_binding_shape b) as [[e He]|[h Hh]].
  - rewrite He in H. discriminate.
  - rewrite Hh in H. cbn [rbind orb] in H.
    destruct (foldM_shape scan_binding bs scan_binding_shape) as [[e He]|[h' Hh']].
    + rewrite He in H. discriminate.
    + rewrite Hh' in H. injection H as H.
      apply orb_false_elim in H as [-> ->].
      constructor.
      * intros f. rewrite Hh. now rewrite orb_false_r.
      * apply IH. rewrite Hh'. reflexivity.
Qed.

Lemma foldM_app {A B} (g : A -> B -> result A) (a : A) (l1 l2 : list B) :
  foldM g a (l1 ++ l2) = (a' <- foldM g a l1 ;; foldM g a' l2).
Proof.
  revert a. induction l1 as [|x l1 IH]; intros a; cbn [foldM app rbind]; [reflexivity|].
  destruct (g a x); cbn [rbind]; [apply IH | reflexivity].
Qed.

Lemma scan_members_clean b ms found :
  forallb not_allUsers ms = true -> foldM (scan_member b) found ms = Ok found.
Proof.
  induction ms as [|m ms IH]; cbn [forallb foldM]; [reflexivity|].
  intros [Hm Hms]%andb_prop. unfold scan_member at 1.
  unfold not_allUsers in Hm. apply negb_true_iff in Hm. rewrite Hm. cbn [rbind].
  now apply IH.
Qed.

Lemma filter_clean ms : forallb not_allUsers (filter not_allUsers ms) = true.
Proof.
  induction ms as [|m ms IH]; cbn; [reflexivity|].
  destruct (not_allUsers m) eqn:E; cbn; [rewrite E|]; exact IH.
Qed.

Lemma filter_filter {A} (p : A -> bool) (l : list A) :
  filter p (filter p l) = filter p l.
Proof.
  induction l as [|x l IH]; cbn; [reflexivity|].
  destruct (p x) eqn:E; cbn; [rewrite E, IH|]; auto.
Qed.

Lemma foldM_fixed {A B} (g : A -> B -> result A) (a : A) (l : list B) :
  (forall x, g a x = Ok a) -> foldM g a l = Ok a.
Proof.
  intros H. induction l as [|x l IH]; cbn [foldM]; [reflexivity|].
  now rewrite H.
Qed.

(** A binding that went through lines 75-77 is passed over by the scan. *)
Lemma strip_binding_passed_over b b' :
  strip_binding b = Ok b' -> passed_over b'.
Proof.
  unfold strip_binding.
  destruct b as [| | | | |?|d]; try discriminate. cbn [py_get].
  destruct (dict_get "members" d) as [held|] eqn:Hheld; cbn [rbind].
  2:{ cbn. intros [= <-] f. unfold scan_binding. cbn [py_get]. now rewrite Hheld. }
  destruct (py_iter held) as [[|m rest]|e] eqn:Hiter; cbn [rbind foldM]; try discriminate.
  { intros [= <-] f. unfold scan_binding. cbn [py_get]. rewrite Hheld. cbn [rbind].
    now rewrite Hiter. }
  unfold strip_round at 1. cbn [py_getitem].
  destruct (dict_get "role" d) as [role|] eqn:Hrole; cbn [rbind]; [|discriminate].
  destruct (py_eq_str role INVOKER) eqn:Hinv.
  - rewrite Hheld. cbn [rbind]. rewrite Hiter. cbn [rbind py_setitem].
    set (kept := filter not_allUsers (m :: rest)).
    rewrite foldM_fixed.
    + intros [= <-] f. unfold scan_binding. cbn [py_get].
      rewrite dict_get_set_same. cbn [rbind py_iter].
      apply scan_members_clean, filter_clean.
    + intros x. unfold strip_round. cbn [py_getitem].
      rewrite dict_get_set_other by discriminate. rewrite Hrole. cbn [rbind].
      rewrite Hinv, dict_get_set_same. cbn [rbind py_iter py_setitem].
      unfold kept. now rewrite filter_filter, dict_set_set.
  - cbn [rbind]. rewrite foldM_fixed.
    + intros [= <-] f. unfold scan_binding. cbn [py_get]. rewrite Hheld. cbn [rbind].
      rewrite Hiter. cbn [rbind]. rewrite (scan_members_role d role _ f Hrole).
      rewrite Hinv. cbn [andb]. now rewrite orb_false_r.
    + intros x. unfold strip_round. cbn [py_getitem]. rewrite Hrole. cbn [rbind].
      now rewrite Hinv.
Qed.

Lemma strip_bindings_passed_over bs bs' found :
  mapM strip_binding bs = Ok bs' -> foldM scan_binding found bs' = Ok found.
Proof.
  revert bs'. induction bs as [|b bs IH]; intros bs'; cbn [mapM].
  - now intros [= <-].
  - destruct (strip_binding b) as [b'|] eqn:Hb; cbn [rbind]; [|discriminate].
    destruct (mapM strip_binding bs) as [rest|]; cbn [rbind]; [|discriminate].
    intros [= <-]. cbn [foldM]. rewrite (strip_binding_passed_over b b' Hb found).
    cbn [rbind]. now apply IH.
Qed.

(** Walking a str or a dict yields strs. *)
Lemma py_iter_strs o elems :
  py_iter o = Ok elems -> (forall l, o <> JList l) -> forallb is_str elems = true.
Proof.
  destruct o as [| | | |s|l|d]; cbn [py_iter]; try discriminate; intros [= <-] Hl.
  - unfold chars. induction (list_ascii_of_string s); cbn; auto.
  - now contradiction (Hl l).
  - clear Hl. unfold dict_keys. induction d; cbn; auto.
Qed.

Lemma strip_strs elems elems' :
  forallb is_str elems = true -> mapM strip_binding elems = Ok elems' -> elems = [].
Proof.
  destruct elems as [|[| | | |s| |] rest]; cbn; try discriminate; auto.
Qed.

(** Lines 73-77 leave a policy in which the scan finds nothing. *)
Lemma remove_allUsers_scan P P' :
  allUsers_is_invoker_member P = Ok true ->
  remove_allUsers P = Ok P' ->
  allUsers_is_invoker_member P' = Ok false.
Proof.
  unfold remove_allUsers, allUsers_is_invoker_member.
  destruct P as [| | | | |?|d]; try discriminate. cbn [py_get].
  destruct (dict_get "bindings" d) as [bs|] eqn:Hbs; cbn [rbind py_iter foldM];
    [|discriminate].
  destruct (py_iter bs) as [elems|] eqn:Hiter; cbn [rbind]; [|discriminate].
  intros Hscan.
  destruct (mapM strip_binding elems) as [elems'|] eqn:Hmap; cbn [rbind]; [|discriminate].
  intros [= <-].
  destruct bs as [| | | |s|l|kd];
    try (cbn in Hiter; discriminate).
  - assert (elems = []) as ->
        by (eapply strip_strs; [eapply py_iter_strs; [exact Hiter | discriminate] | exact Hmap]).
    discriminate.
  - cbn in Hiter. injection Hiter as ->.
    cbn [edited_in_place]. unfold dict_has. rewrite Hbs.
    cbn [py_get]. rewrite dict_get_set_same. cbn [rbind py_iter].
    now apply strip_bindings_passed_over with (bs := elems).
  - assert (elems = []) as ->
        by (eapply strip_strs; [eapply py_iter_strs; [exact Hiter | discriminate] | exact Hmap]).
    discriminate.
Qed.

(** A binding that went through lines 83-85: the scan finds ["allUsers"] in
    it when it is an invoker binding, and passes over it as before when it
    is not. *)
Lemma grant_binding_scan b hit b' :
  grant_binding b = Ok (hit, b') -> passed_over b ->
  forall f, scan_binding f b' = Ok (f || hit).
Proof.
  unfold grant_binding.
  destruct b as [| | | | |?|d]; try discriminate. cbn [py_getitem].
  destruct (dict_get "role" d) as [role|] eqn:Hrole; cbn [rbind]; [|discriminate].
  destruct (py_eq_str role INVOKER) eqn:Hinv.
  - destruct (dict_get "members" d) as [held|]; cbn [rbind]; [|discriminate].
    destruct held as [| | | | |ms|]; try discriminate. cbn [py_append rbind py_setitem].
    intros [= <- <-] _ f. unfold scan_binding. cbn [py_get].
    rewrite dict_get_set_same. cbn [rbind py_iter].
    rewrite (scan_members_role _ role _ f).
    + rewrite Hinv, existsb_app. cbn. now rewrite !orb_true_r.
    + rewrite dict_get_set_other by discriminate. exact Hrole.
  - intros [= <- <-] Hq f. rewrite Hq. now rewrite orb_false_r.
Qed.

Lemma grant_bindings_scan bs : forall acc flag bs',
  grant_bindings acc bs = Ok (flag, bs') -> Forall passed_over bs ->
  exists hit, flag = hit || acc
              /\ forall f, foldM scan_binding f bs' = Ok (f || hit).
Proof.
  induction bs as [|b bs IH]; intros acc flag bs'; cbn [grant_bindings].
  - intros [= <- <-] _. exists false. split; [reflexivity|].
    intros f. cbn. now rewrite orb_false_r.
  - destruct (grant_binding b) as [[hit b1]|] eqn:Hb; cbn [rbind]; [|discriminate].
    destruct (grant_bindings (hit || acc) bs) as [[final rest]|] eqn:Hrest;
      cbn [rbind]; [|discriminate].
    intros [= <- <-] Hall. inversion Hall as [|? ? Hq Hqs]; subst.
    destruct (IH _ _ _ Hrest Hqs) as (hit' & -> & Hscan).
    exists (hit || hit'). split.
    + rewrite orb_assoc. f_equal. apply orb_comm.
    + intros f. cbn [foldM]. rewrite (grant_binding_scan _ _ _ Hb Hq f). cbn [rbind].
      rewrite Hscan. now rewrite orb_assoc.
Qed.

Lemma grant_strs elems acc flag elems' :
  forallb is_str elems = true -> grant_bindings acc elems = Ok (flag, elems') ->
  elems = [].
Proof.
  destruct elems as [|[| | | |s| |] rest]; cbn; try discriminate; auto.
Qed.

Lemma py_len_iter o n elems :
  py_len o = Ok n -> py_iter o = Ok elems -> List.length elems = n.
Proof.
  destruct o as [| | | |s|l|d]; cbn; try discriminate; intros [= <-] [= <-].
  - unfold chars. rewrite length_map. induction s; cbn; auto.
  - reflexivity.
  - unfold dict_keys. now rewrite !length_map.
Qed.

Lemma scan_fresh_public :
  forall f, scan_binding f (fresh_invoker_binding [JStr "allUsers"]) = Ok true.
Proof. now intros []. Qed.

(** Lines 79-87 leave a policy in which the scan finds ["allUsers"]. *)
Lemma add_allUsers_scan P P' :
  allUsers_is_invoker_member P = Ok false ->
  add_allUsers P = Ok P' ->
  allUsers_is_invoker_member P' = Ok true.
Proof.
  unfold add_allUsers.
  destruct P as [| | | | |?|d]; try discriminate. cbn [py_contains rbind].
  intros Hscan.
  assert (Hfresh : forall d0,
    allUsers_is_invoker_member
      (JObj (dict_set "bindings" (JList [fresh_invoker_binding [JStr "allUsers"]]) d0))
    = Ok true).
  { intros d0. unfold allUsers_is_invoker_member. cbn [py_get].
    now rewrite dict_get_set_same. }
  assert (Hcreate :
    (policy1 <- py_setitem (JObj d) "bindings" (JList [fresh_invoker_binding []]) ;;
     bs <- py_getitem policy1 "bindings" ;;
     bindings <- py_iter bs ;;
     '(invoker_role_exists, bindings') <- grant_bindings false bindings ;;
     let policy2 := edited_in_place policy1 bs bindings' in
     if invoker_role_exists then Ok policy2
     else bs2 <- py_getitem policy2 "bindings" ;;
          bs3 <- py_append bs2 (fresh_invoker_binding [JStr "allUsers"]) ;;
          py_setitem policy2 "bindings" bs3) = Ok P' ->
    allUsers_is_invoker_member P' = Ok true).
  { cbn [py_setitem rbind py_getitem]. rewrite dict_get_set_same. cbn [rbind py_iter].
    cbn. unfold dict_has. rewrite dict_get_set_same, dict_set_set.
    intros [= <-]. apply Hfresh. }
  unfold dict_has. destruct (dict_get "bindings" d) as [bs|] eqn:Hbs; cbn [rbind];
    [|exact Hcreate].
  cbn [py_getitem]. rewrite Hbs. cbn [rbind].
  destruct (py_len bs) as [n|] eqn:Hlen; cbn [rbind]; [|discriminate].
  destruct (Nat.eqb n 0) eqn:Hn; [exact Hcreate|].
  cbn [rbind py_getitem]. rewrite Hbs. cbn [rbind].
  destruct (py_iter bs) as [elems|] eqn:Hiter; cbn [rbind]; [|discriminate].
  destruct (grant_bindings false elems) as [[flag elems']|] eqn:Hgrant; cbn [rbind];
    [|discriminate].
  assert (Hlist : bs = JList elems).
  { destruct bs as [| | | |s|l|kd]; try (cbn in Hiter; discriminate).
    - assert (elems = []) as -> by
        (eapply grant_strs; [eapply py_iter_strs; [exact Hiter|discriminate]|exact Hgrant]).
      apply (py_len_iter _ _ _ Hlen) in Hiter. cbn in Hiter. subst n. discriminate.
    - cbn in Hiter. now injection Hiter as ->.
    - assert (elems = []) as -> by
        (eapply grant_strs; [eapply py_iter_strs; [exact Hiter|discriminate]|exact Hgrant]).
      apply (py_len_iter _ _ _ Hlen) in Hiter. cbn in Hiter. subst n. discriminate. }
  subst bs. cbn [edited_in_place]. unfold dict_has. rewrite Hbs.
  assert (Hquiet : Forall passed_over elems).
  { apply scan_false_passed_over. revert Hscan. unfold allUsers_is_invoker_member.
    cbn [py_get]. rewrite Hbs. cbn [rbind py_iter]. auto. }
  destruct (grant_bindings_scan _ _ _ _ Hgrant Hquiet) as (hit & -> & Hafter).
  rewrite orb_false_r. destruct hit.
  - intros [= <-]. unfold allUsers_is_invoker_member. cbn [py_get].
    rewrite dict_get_set_same. cbn [rbind py_iter]. apply Hafter.
  - cbn [py_getitem]. rewrite dict_get_set_same. cbn [rbind py_append py_setitem].
    intros [= <-]. unfold allUsers_is_invoker_member. cbn [py_get].
    rewrite dict_get_set_same. cbn [rbind py_iter].
    rewrite foldM_app, Hafter. cbn [rbind orb foldM].
    now rewrite scan_fresh_public.
Qed.

(** ** The invoker-binding evaluator: when it returns at once *)




(** ** The invoker-binding evaluator: a second run *)

(** C5.  The invoker-binding evaluator is idempotent: for every policy and
    every desired boolean, once the evaluator's mutation is applied, a
    second run with the same desired boolean on the resulting policy meets
    the skip condition, and the view returns 200 having issued no second
    mutation. *)
Theorem invoker_evaluator_idempotent (d : bool) (P P' : json) :
  invoker_binding_evaluator (JBool d) P = Ok (Mutate P') ->
  invoker_binding_evaluator (JBool d) P' = Ok NoChange
  /\ forall (w : world) (req : request) (token project_id region webhook_name txt : string),
       webhook_request w req token project_id region webhook_name (JBool d) ->
       w _ (requests_get (getIamPolicy_url project_id region webhook_name)
              (auth_headers project_id token)) = HttpResponse 200 txt (Ok P') ->
       run w (update_webhook_access req)
       = (Returned OK200,
          fetched_only (getIamPolicy_url project_id region webhook_name)
            (auth_headers project_id token)).
Proof.
  intros Hfirst.
  assert (Hsecond : invoker_binding_evaluator (JBool d) P' = Ok NoChange).
  { revert Hfirst. unfold invoker_binding_evaluator at 1.
    destruct (allUsers_is_invoker_member P) as [found|] eqn:Hscan; cbn [rbind];
      [|discriminate].
    rewrite no_change_needed_bool. cbn [truthy].
    destruct d, found; cbn [negb andb orb]; try discriminate.
    - destruct (remove_allUsers P) as [Q|] eqn:Hrm; cbn [rbind]; [|discriminate].
      intros [= <-].
      apply (evaluator_no_change _ _ false); [|reflexivity].
      now apply remove_allUsers_scan with (P := P).
    - destruct (add_allUsers P) as [Q|] eqn:Hadd; cbn [rbind]; [|discriminate].
      intros [= <-].
      apply (evaluator_no_change _ _ true); [|reflexivity].
      now apply add_allUsers_scan with (P := P). }
  split; [exact Hsecond|].
  intros w req token project_id region webhook_name txt Hreq Hget.
  rewrite (run_update_webhook_access w req token project_id region webhook_name
             (JBool d) txt P' Hreq Hget).
  now rewrite Hsecond.
Qed.

Lemma invoker_evaluator_idempotent_witness :
  invoker_binding_evaluator (JBool true) public_policy
  = Ok (Mutate (JObj [("bindings", JList [fresh_invoker_binding []])]))
  /\ invoker_binding_evaluator (JBool true)
       (JObj [("bindings", JList [fresh_invoker_binding []])]) = Ok NoChange.
Proof.
  split; [reflexivity|].
  apply (invoker_evaluator_idempotent true public_policy
           (JObj [("bindings", JList [fresh_invoker_binding []])])).
  reflexivity.
Defined.

(** ** [update_webhook_ingress] *)

Lemma py_eq_str_iff v s : py_eq_str v s = true <-> v = JStr s.
Proof.
  destruct v; cbn; try (split; discriminate).
  rewrite String.eqb_eq. split; [now intros -> | now intros [= ->]].
Qed.

(** C6.  For every ingress descriptor and every desired boolean (true for
    ALLOW_INTERNAL_ONLY, false for ALLOW_ALL), the ingress reconciliation
    skips the mutation if and only if the descriptor's ingressSettings
    already equals the desired setting; otherwise it issues a PATCH of the
    whole descriptor in which ingressSettings is the desired setting and
    every other field is as fetched. *)
Theorem ingress_skips_iff_setting_matches
    (w : world) (req : request) (token project_id region webhook_name txt : string)
    (d : bool) (descriptor : dict json) (current : json) :
  webhook_request w req token project_id region webhook_name (JBool d) ->
  w _ (requests_get (function_url project_id region webhook_name)
         (ingress_headers project_id token))
  = HttpResponse 200 txt (Ok (JObj descriptor)) ->
  dict_get "ingressSettings" descriptor = Some current ->
  let desired := if d then "ALLOW_INTERNAL_ONLY" else "ALLOW_ALL" in
  let url := function_url project_id region webhook_name in
  let headers := ingress_headers project_id token in
  (existsb is_mutation (snd (run w (update_webhook_ingress req))) = false
   <-> current = JStr desired)
  /\ (current = JStr desired ->
      run w (update_webhook_ingress req) = (Returned OK200, fetched_only url headers))
  /\ (current <> JStr desired ->
      exists patched,
        snd (run w (update_webhook_ingress req))
        = [Call get_token; Call (requests_get url headers);
           Call (requests_patch url headers (JObj patched) [])]
        /\ dict_get "ingressSettings" patched = Some (JStr desired)
        /\ (forall k, k <> "ingressSettings" ->
                      dict_get k patched = dict_get k descriptor)
        /\ dict_keys patched = dict_keys descriptor).
Proof.
  intros [Htok Hproj Hne Hreg Hhook Hst] Hget Hcur desired.
  set (url := function_url project_id region webhook_name) in *.
  set (headers := ingress_headers project_id token) in *.
  cbn zeta.
  assert (Hrun : run w (update_webhook_ingress req)
    = if py_eq_str current desired then (Returned OK200, fetched_only url headers)
      else
        let patch := requests_patch url headers
                       (JObj (dict_set "ingressSettings" (JStr desired) descriptor)) [] in
        (if negb (status_code (w _ patch) =? 200)%Z
         then Returned (Response (status_code (w _ patch)) (Text (text (w _ patch))))
         else Returned OK200,
         [Call get_token; Call (requests_get url headers); Call patch])).
  { unfold update_webhook_ingress. rewrite run_vis, Htok.
    cbn [ans_response ans_key ans_value try]. rewrite Hproj.
    apply String.eqb_neq in Hne. rewrite Hne.
    unfold args_item. rewrite Hreg, Hhook. cbn [try]. rewrite Hst. cbn [try].
    rewrite run_vis. fold url headers. rewrite Hget.
    cbn [status_code r_json negb Z.eqb Pos.eqb try fst snd py_getitem].
    rewrite Hcur. cbn [try].
    replace (ingress_settings_of (JBool d)) with desired by now destruct d.
    destruct (py_eq_str current desired); [reflexivity|].
    cbn [py_setitem try]. rewrite run_vis. cbn [fst snd].
    destruct (negb (status_code _ =? 200)%Z); reflexivity. }
  rewrite Hrun. pose proof (py_eq_str_iff current desired) as Heq.
  destruct (py_eq_str current desired).
  - split; [|split].
    + split; [intros _; now apply Heq | reflexivity].
    + reflexivity.
    + intros Hneq. exfalso. apply Hneq. now apply Heq.
  - split; [|split].
    + cbn. split; [discriminate|]. intros H. apply Heq in H. discriminate.
    + intros H. apply Heq in H. discriminate.
    + intros _. exists (dict_set "ingressSettings" (JStr desired) descriptor).
      repeat split.
      * apply dict_get_set_same.
      * intros k Hk. apply dict_get_set_other. congruence.
      * now apply dict_set_keys with (v0 := current).
Qed.

Lemma webhook_request_open d :
  webhook_request open_world (set_status d webhook_args)
    "t0" "p1" "us-central1" "hook" (JBool d).
Proof. constructor; try reflexivity. discriminate. Defined.

Lemma ingress_skips_iff_setting_matches_witness :
  exists patched,
    snd (run open_world (update_webhook_ingress (set_status true webhook_args)))
    = [Call get_token;
       Call (requests_get (function_url "p1" "us-central1" "hook")
               (ingress_headers "p1" "t0"));
       Call (requests_patch (function_url "p1" "us-central1" "hook")
               (ingress_headers "p1" "t0") (JObj patched) [])]
    /\ dict_get "ingressSettings" patched = Some (JStr "ALLOW_INTERNAL_ONLY")
    /\ (forall k, k <> "ingressSettings" ->
                  dict_get k patched = dict_get k open_function)
    /\ dict_keys patched = dict_keys open_function.
Proof.
  apply (ingress_skips_iff_setting_matches open_world (set_status true webhook_args)
           "t0" "p1" "us-central1" "hook" "" true open_function (JStr "ALLOW_ALL")
           (webhook_request_open true) eq_refl eq_refl).
  discriminate.
Defined.

(** ** A request that names no project *)




(** ** The fulfillment mode *)

(** C10.  In the fulfillment endpoint, for every request body whose 'status'
    is a boolean, the computed fulfillment mode is exactly one of
    'service-directory' and 'generic-web-service', so the branch that
    answers 500 'Unexpected setting for fulfillment: ...' is never taken:
    lines 248-269 always build the body of the PATCH. *)
Theorem fulfillment_mode_is_known (d : bool) :
  fulfillment_of (JBool d)
  = (if d then "service-directory" else "generic-web-service")
  /\ (fulfillment_of (JBool d) = "service-directory"
      \/ fulfillment_of (JBool d) = "generic-web-service")
  /\ forall (w : world) (token project_id region bucket webhook_trigger_uri : string),
       exists data,
         fst (run w (webhook_payload (fulfillment_of (JBool d)) token project_id
                       region bucket webhook_trigger_uri))
         = inr data.
Proof.
  destruct d; cbn [fulfillment_of py_eq_bool Bool.eqb].
  - split; [reflexivity|]. split; [now left|].
    intros w token project_id region bucket uri.
    unfold webhook_payload. cbn [String.eqb Ascii.eqb Bool.eqb].
    rewrite run_vis. cbn [run fst]. eexists. reflexivity.
  - split; [reflexivity|]. split; [now right|].
    intros w token project_id region bucket uri.
    unfold webhook_payload. cbn [String.eqb Ascii.eqb Bool.eqb].
    cbn [run fst]. eexists. reflexivity.
Qed.

(** ** A rejected fetch *)

(** X5.  When the getIamPolicy request is turned down, [update_webhook_access]
    aborts with the upstream status code and makes no further call; the text
    of the upstream response has no part in what it hands to Flask. *)
Lemma access_rejection_aborts
    (w : world) (req : request) (token project_id region webhook_name : string)
    (v : json) (code : Z) (txt : string) (decoded : result json) :
  webhook_request w req token project_id region webhook_name v ->
  w _ (requests_get (getIamPolicy_url project_id region webhook_name)
         (auth_headers project_id token)) = HttpResponse code txt decoded ->
  code <> 200%Z ->
  run w (update_webhook_access req)
  = (Aborted code,
     fetched_only (getIamPolicy_url project_id region webhook_name)
       (auth_headers project_id token)).
Proof.
  intros [Htok Hproj Hne Hreg Hhook Hst] Hget Hcode.
  unfold update_webhook_access. rewrite run_vis, Htok.
  cbn [ans_response ans_key ans_value try].
  rewrite Hst. cbn [try]. rewrite Hproj.
  apply String.eqb_neq in Hne. rewrite Hne.
  unfold args_item. rewrite Hreg, Hhook. cbn [try].
  rewrite run_vis, Hget. cbn [status_code].
  apply Z.eqb_neq in Hcode. rewrite Hcode. reflexivity.
Qed.

(** X6.  When the function request is turned down, [update_webhook_ingress]
    answers with the upstream status code and the upstream text, and makes
    no further call. *)
Lemma ingress_rejection_forwards
    (w : world) (req : request) (token project_id region webhook_name : string)
    (v : json) (code : Z) (txt : string) (decoded : result json) :
  webhook_request w req token project_id region webhook_name v ->
  w _ (requests_get (function_url project_id region webhook_name)
         (ingress_headers project_id token)) = HttpResponse code txt decoded ->
  code <> 200%Z ->
  run w (update_webhook_ingress req)
  = (Returned (Response code (Text txt)),
     fetched_only (function_url project_id region webhook_name)
       (ingress_headers project_id token)).
Proof.
  intros [Htok Hproj Hne Hreg Hhook Hst] Hget Hcode.
  unfold update_webhook_ingress. rewrite run_vis, Htok.
  cbn [ans_response ans_key ans_value try]. rewrite Hproj.
  apply String.eqb_neq in Hne. rewrite Hne.
  unfold args_item. rewrite Hreg, Hhook. cbn [try]. rewrite Hst. cbn [try].
  rewrite run_vis, Hget. cbn [status_code text].
  apply Z.eqb_neq in Hcode. rewrite Hcode. reflexivity.
Qed.

(** C7.  The getIamPolicy request answers 403.  No mutation is attempted and
    the status code is 403, but [update_webhook_access] aborts with the code
    alone: whatever the upstream body, the view hands Flask the same value,
    so the upstream body is not what the caller receives.
    [update_webhook_ingress], turned down in the same way, answers 403 with
    the upstream text. *)
Theorem access_rejection_drops_upstream_body :
  (forall (txt : string) (decoded : result json),
     run (world_of (answers_for (HttpResponse 403 txt decoded)))
       (update_webhook_access (set_status true webhook_args))
     = (Aborted 403,
        fetched_only (getIamPolicy_url "p1" "us-central1" "hook")
          (auth_headers "p1" "t0")))
  /\ (forall (txt : string) (decoded : result json),
        run (world_of (answers_for (HttpResponse 403 txt decoded)))
          (update_webhook_ingress (set_status true webhook_args))
        = (Returned (Response 403 (Text txt)),
           fetched_only (function_url "p1" "us-central1" "hook")
             (ingress_headers "p1" "t0")))
  /\ run denying_world (update_webhook_access (set_status true webhook_args))
     = (Aborted 403,
        fetched_only (getIamPolicy_url "p1" "us-central1" "hook")
          (auth_headers "p1" "t0"))
  /\ run denying_world (update_webhook_ingress (set_status true webhook_args))
     = (Returned (Response 403 (Text "denied")),
        fetched_only (function_url "p1" "us-central1" "hook")
          (ingress_headers "p1" "t0")).
Proof. repeat split. Qed.

(** ** The perimeter evaluator *)

(** C3.  Given the status {"status":{}}, the api "x.googleapis.com" and
    desired=true, line 145 stores the api name itself under
    'restrictedServices': the result is
    {"status":{"restrictedServices":"x.googleapis.com"}}, not the one-element
    list {"status":{"restrictedServices":["x.googleapis.com"]}}. *)
Theorem perimeter_add_to_absent_stores_str :
  update_service_perimeter_status_inplace "x.googleapis.com" (JBool true)
    (JObj [("status", JObj [])])
  = Ok (None, JObj [("status", JObj [("restrictedServices", JStr "x.googleapis.com")])])
  /\ JObj [("status", JObj [("restrictedServices", JStr "x.googleapis.com")])]
     <> JObj [("status", JObj [("restrictedServices", JList [JStr "x.googleapis.com"])])].
Proof. split; [reflexivity | discriminate]. Qed.

(** X10.  A policy without a ['bindings'] key is taken as one without bindings:
    nothing to do when internal-only is wanted, one fresh invoker binding
    for "allUsers" when it is not. *)
Lemma evaluator_without_bindings (d : bool) (fields : dict json) :
  dict_get "bindings" fields = None ->
  invoker_binding_evaluator (JBool d) (JObj fields)
  = Ok (if d then NoChange
        else Mutate (JObj (dict_set "bindings"
                             (JList [fresh_invoker_binding [JStr "allUsers"]]) fields))).
Proof.
  intros Hno. unfold invoker_binding_evaluator, allUsers_is_invoker_member.
  cbn [py_get]. rewrite Hno. cbn [rbind py_iter foldM].
  rewrite no_change_needed_bool. destruct d; cbn [negb andb orb truthy]; [reflexivity|].
  unfold add_allUsers. cbn [py_contains]. unfold dict_has. rewrite Hno.
  cbn [rbind py_setitem py_getitem]. rewrite dict_get_set_same.
  cbn [rbind py_iter]. cbn. unfold dict_has.
  now rewrite dict_get_set_same, dict_set_set.
Qed.

(** A status without a ['restrictedServices'] key: a removal finds nothing to
    do; an addition stores the api name under the key. *)
Lemma perimeter_without_services (api : string) (d st : dict json) :
  dict_get "status" d = Some (JObj st) ->
  dict_get "restrictedServices" st = None ->
  update_service_perimeter_status_inplace api (JBool false) (JObj d)
  = Ok (Some OK200, JObj d)
  /\ update_service_perimeter_status_inplace api (JBool true) (JObj d)
     = Ok (None,
           JObj (dict_set "status"
                   (JObj (dict_set "restrictedServices" (JStr api) st)) d)).
Proof.
  intros Hst Hno. unfold update_service_perimeter_status_inplace.
  cbn [py_eq_bool Bool.eqb py_getitem]. rewrite Hst. cbn [rbind py_contains].
  unfold dict_has. rewrite Hno. cbn [negb]. split; reflexivity.
Qed.

(** C9.  Missing optional fields.  A policy without 'bindings' and a status
    without 'restrictedServices' asked to remove an api are taken as empty.
    A status without 'restrictedServices' asked to add an api is not: the
    result differs from the result on the empty list, the api name is stored
    in place of a list.  An invoker binding without 'members' that is to
    receive "allUsers" raises KeyError at line 85. *)
Theorem missing_fields_not_always_empty :
  invoker_binding_evaluator (JBool true) (JObj []) = Ok NoChange
  /\ invoker_binding_evaluator (JBool false) (JObj []) = Ok (Mutate public_policy)
  /\ update_service_perimeter_status_inplace "x.googleapis.com" (JBool false)
       (JObj [("status", JObj [])])
     = Ok (Some OK200, JObj [("status", JObj [])])
  /\ update_service_perimeter_status_inplace "x.googleapis.com" (JBool true)
       (JObj [("status", JObj [("restrictedServices", JList [])])])
     = Ok (None,
           JObj [("status", JObj [("restrictedServices", JList [JStr "x.googleapis.com"])])])
  /\ update_service_perimeter_status_inplace "x.googleapis.com" (JBool true)
       (JObj [("status", JObj [])])
     = Ok (None, JObj [("status", JObj [("restrictedServices", JStr "x.googleapis.com")])])
  /\ invoker_binding_evaluator (JBool false) memberless_policy = Raise (KeyError "members").
Proof. repeat split. Qed.

(** ** Evaluate, then apply *)

Lemma strip_binding_total b :
  is_binding b = true ->
  exists b', strip_binding b = Ok b' /\ is_binding b' = true.
Proof.
  destruct b as [| | | | |?|d]; try discriminate. cbn [is_binding].
  unfold dict_has. destruct (dict_get "role" d) as [role|] eqn:Hrole; [|discriminate].
  cbn [andb]. unfold strip_binding. cbn [py_get].
  assert (Hsame : is_binding (JObj d) = true -> exists b',
            Ok (JObj d) = Ok b' /\ is_binding b' = true) by (intros H; eauto).
  destruct (dict_get "members" d) as [[| | | | |ms|]|] eqn:Hms; try discriminate; intros _.
  2:{ cbn. apply Hsame. cbn. unfold dict_has. now rewrite Hrole, Hms. }
  cbn [rbind py_iter]. destruct ms as [|m rest]; cbn [foldM].
  { apply Hsame. cbn. unfold dict_has. now rewrite Hrole, Hms. }
  unfold strip_round at 1. cbn [py_getitem]. rewrite Hrole. cbn [rbind].
  destruct (py_eq_str role INVOKER) eqn:Hinv.
  - rewrite Hms. cbn [rbind py_iter py_setitem].
    set (kept := filter not_allUsers (m :: rest)).
    rewrite foldM_fixed.
    + eexists. split; [reflexivity|]. cbn [is_binding]. unfold dict_has.
      rewrite dict_get_set_other by discriminate. rewrite Hrole.
      now rewrite dict_get_set_same.
    + intros x. unfold strip_round. cbn [py_getitem].
      rewrite dict_get_set_other by discriminate. rewrite Hrole. cbn [rbind].
      rewrite Hinv, dict_get_set_same. cbn [rbind py_iter py_setitem].
      unfold kept. now rewrite filter_filter, dict_set_set.
  - cbn [rbind]. rewrite foldM_fixed.
    + apply Hsame. cbn. unfold dict_has. now rewrite Hrole, Hms.
    + intros x. unfold strip_round. cbn [py_getitem]. rewrite Hrole. cbn [rbind].
      now rewrite Hinv.
Qed.

Lemma strip_bindings_total bs :
  forallb is_binding bs = true ->
  exists bs', mapM strip_binding bs = Ok bs' /\ forallb is_binding bs' = true.
Proof.
  induction bs as [|b bs IH]; cbn [forallb mapM].
  - intros _. now exists [].
  - intros [Hb Hbs]%andb_prop.
    destruct (strip_binding_total b Hb) as (b' & -> & Hb').
    destruct (IH Hbs) as (bs' & -> & Hbs'). cbn [rbind].
    exists (b' :: bs'). split; [reflexivity|]. cbn. now rewrite Hb', Hbs'.
Qed.

(** Lines 73-77 do not raise on an IAM policy, and leave one. *)
Lemma remove_allUsers_total P :
  is_policy P = true -> exists P', remove_allUsers P = Ok P' /\ is_policy P' = true.
Proof.
  destruct P as [| | | | |?|d]; try discriminate.
  unfold is_policy at 1, remove_allUsers. cbn [py_get].
  destruct (dict_get "bindings" d) as [[| | | | |bs|]|] eqn:Hbs; try discriminate.
  - intros Hall. cbn [rbind py_iter].
    destruct (strip_bindings_total bs Hall) as (bs' & -> & Hbs'). cbn [rbind].
    eexists. split; [reflexivity|]. cbn [edited_in_place]. unfold dict_has. rewrite Hbs.
    cbn [is_policy]. now rewrite dict_get_set_same.
  - intros _. cbn [rbind py_iter mapM edited_in_place]. unfold dict_has. rewrite Hbs.
    eexists. split; [reflexivity|]. cbn [is_policy]. now rewrite Hbs.
Qed.

Lemma grant_binding_total b :
  is_binding b = true -> has_members b = true ->
  exists hit b', grant_binding b = Ok (hit, b')
                 /\ is_binding b' = true /\ has_members b' = true.
Proof.
  destruct b as [| | | | |?|d]; try discriminate. cbn [is_binding has_members].
  unfold dict_has. destruct (dict_get "role" d) as [role|] eqn:Hrole; [|discriminate].
  destruct (dict_get "members" d) as [[| | | | |ms|]|] eqn:Hms; try discriminate.
  intros _ _. unfold grant_binding. cbn [py_getitem]. rewrite Hrole. cbn [rbind].
  destruct (py_eq_str role INVOKER).
  - rewrite Hms. cbn [rbind py_append py_setitem].
    do 2 eexists. split; [reflexivity|]. cbn [is_binding has_members]. unfold dict_has.
    rewrite dict_get_set_other by discriminate. rewrite Hrole.
    now rewrite dict_get_set_same.
  - do 2 eexists. split; [reflexivity|]. cbn [is_binding has_members]. unfold dict_has.
    now rewrite Hrole, Hms.
Qed.

Lemma grant_bindings_total bs : forall acc,
  forallb is_binding bs = true -> forallb has_members bs = true ->
  exists flag bs', grant_bindings acc bs = Ok (flag, bs')
                   /\ forallb is_binding bs' = true.
Proof.
  induction bs as [|b bs IH]; intros acc; cbn [forallb grant_bindings].
  - intros _ _. now exists acc, [].
  - intros [Hb Hbs]%andb_prop [Hm Hms]%andb_prop.
    destruct (grant_binding_total b Hb Hm) as (hit & b' & -> & Hb' & _). cbn [rbind].
    destruct (IH (hit || acc) Hbs Hms) as (flag & bs' & -> & Hbs'). cbn [rbind].
    exists flag, (b' :: bs'). split; [reflexivity|]. cbn. now rewrite Hb', Hbs'.
Qed.

Lemma forallb_app_single {A} (p : A -> bool) (l : list A) (x : A) :
  forallb p l = true -> p x = true -> forallb p (l ++ [x]) = true.
Proof. intros Hl Hx. rewrite forallb_app, Hl. cbn. now rewrite Hx. Qed.

(** Lines 79-87 do not raise on a policy whose bindings carry their role
    and their members, and leave an IAM policy. *)
Lemma add_allUsers_total P :
  is_full_policy P = true -> exists P', add_allUsers P = Ok P' /\ is_policy P' = true.
Proof.
  destruct P as [| | | | |?|d]; try discriminate.
  unfold is_full_policy, is_policy, add_allUsers. cbn [py_contains rbind].
  assert (Hcreate : exists P',
    (policy1 <- py_setitem (JObj d) "bindings" (JList [fresh_invoker_binding []]) ;;
     bs <- py_getitem policy1 "bindings" ;;
     bindings <- py_iter bs ;;
     '(invoker_role_exists, bindings') <- grant_bindings false bindings ;;
     let policy2 := edited_in_place policy1 bs bindings' in
     if invoker_role_exists then Ok policy2
     else bs2 <- py_getitem policy2 "bindings" ;;
          bs3 <- py_append bs2 (fresh_invoker_binding [JStr "allUsers"]) ;;
          py_setitem policy2 "bindings" bs3) = Ok P'
    /\ match P' with
       | JObj d' =>
           match dict_get "bindings" d' with
           | None => true
           | Some (JList bs) => forallb is_binding bs
           | Some _ => false
           end
       | _ => false
       end = true).
  { cbn [py_setitem rbind py_getitem]. rewrite dict_get_set_same. cbn [rbind py_iter].
    cbn. unfold dict_has. rewrite dict_get_set_same, dict_set_set.
    eexists. split; [reflexivity|]. cbn beta iota. now rewrite dict_get_set_same. }
  unfold dict_has.
  destruct (dict_get "bindings" d) as [[| | | | |bs|]|] eqn:Hbs; try discriminate;
    [|intros _; exact Hcreate].
  intros [Hall Hmem]%andb_prop. cbn [py_getitem]. rewrite Hbs. cbn [rbind py_len].
  destruct (Nat.eqb (List.length bs) 0); [exact Hcreate|].
  cbn [rbind py_getitem]. rewrite Hbs. cbn [rbind py_iter].
  destruct (grant_bindings_total bs false Hall Hmem) as (flag & bs' & -> & Hbs').
  cbn [rbind edited_in_place]. unfold dict_has. rewrite Hbs.
  destruct flag.
  - eexists. split; [reflexivity|]. cbn beta iota. now rewrite dict_get_set_same.
  - cbn [py_getitem]. rewrite dict_get_set_same. cbn [rbind py_append py_setitem].
    eexists. split; [reflexivity|]. cbn beta iota. rewrite dict_get_set_same.
    now apply forallb_app_single.
Qed.

(** X9.  On a policy whose bindings carry their role and their members,
    evaluate then apply yields a policy in which "allUsers" is a member of some
    invoker binding if and only if the desired boolean is false. *)
Lemma reconcile_on_full_policy (d : bool) (P : json) :
  is_full_policy P = true ->
  exists P', reconcile_invoker (JBool d) P = Ok P'
             /\ is_policy P' = true
             /\ allUsersIsInvoker P' = negb d.
Proof.
  intros Hfull. pose proof Hfull as [HP _]%andb_prop.
  pose proof (scan_policy_spec P HP) as Hscan.
  unfold reconcile_invoker, invoker_binding_evaluator. rewrite Hscan. cbn [rbind].
  rewrite no_change_needed_bool. cbn [truthy].
  destruct d, (allUsersIsInvoker P) eqn:Hfound; cbn [negb andb orb rbind].
  - destruct (remove_allUsers_total P HP) as (P' & Hrm & HP'). rewrite Hrm. cbn [rbind].
    exists P'. repeat split; [exact HP'|].
    pose proof (remove_allUsers_scan P P' Hscan Hrm) as Hafter.
    rewrite (scan_policy_spec P' HP') in Hafter. now injection Hafter.
  - exists P. now repeat split.
  - exists P. now repeat split.
  - destruct (add_allUsers_total P Hfull) as (P' & Hadd & HP'). rewrite Hadd. cbn [rbind].
    exists P'. repeat split; [exact HP'|].
    pose proof (add_allUsers_scan P P' Hscan Hadd) as Hafter.
    rewrite (scan_policy_spec P' HP') in Hafter. now injection Hafter.
Qed.

(** C1.  The policy whose one binding is {"role": "roles/cloudfunctions.invoker"}
    is an IAM policy each of whose bindings carries a 'role' key.  With
    desired internal_only=false the scan finds no "allUsers", the
    reconciliation goes on to add it, and line 85 raises KeyError: no
    policy comes out. *)
Theorem reconcile_raises_on_memberless_binding :
  is_policy memberless_policy = true
  /\ allUsers_is_invoker_member memberless_policy = Ok false
  /\ reconcile_invoker (JBool false) memberless_policy = Raise (KeyError "members").
Proof. repeat split. Qed.

(** ** Adding an api to a perimeter, then removing it *)

Lemma filter_unlisted (api : string) (services : list json) :
  existsb (fun v => py_eq_str v api) services = false ->
  filter (fun service => negb (py_eq_str service api)) services = services.
Proof.
  induction services as [|s services IH]; cbn; [reflexivity|].
  intros [-> Hrest]%orb_false_elim. cbn. now rewrite IH.
Qed.

Lemma filter_appended (api : string) (services : list json) :
  existsb (fun v => py_eq_str v api) services = false ->
  filter (fun service => negb (py_eq_str service api)) (services ++ [JStr api])
  = services.
Proof.
  intros H. rewrite filter_app, (filter_unlisted api services H). cbn.
  rewrite String.eqb_refl. cbn. apply app_nil_r.
Qed.

(** C4, as the code has it.  For every perimeter whose status carries a
    restrictedServices list and every api name: when the list does not hold
    the api, adding it and then removing it yields the original perimeter,
    list order included; when the list already holds the api, the add
    changes nothing and the remove then deletes the api from the list. *)
Theorem add_then_remove_when_listed_or_not
    (api : string) (d st : dict json) (services : list json) :
  dict_get "status" d = Some (JObj st) ->
  dict_get "restrictedServices" st = Some (JList services) ->
  let listed := existsb (fun v => py_eq_str v api) services in
  (listed = false -> add_then_remove api (JObj d) = Ok (JObj d))
  /\ (listed = true ->
      add_then_remove api (JObj d)
      = Ok (JObj (dict_set "status"
                    (JObj (dict_set "restrictedServices"
                             (JList (filter (fun service => negb (py_eq_str service api))
                                       services)) st)) d))).
Proof.
  intros Hst Hrs listed. unfold add_then_remove, update_service_perimeter_status_inplace.
  cbn [py_eq_bool Bool.eqb py_getitem]. rewrite Hst. cbn [rbind py_contains].
  unfold dict_has. rewrite Hrs. cbn [negb rbind py_getitem]. rewrite Hrs.
  cbn [rbind py_contains]. fold listed.
  split; intros Hl; rewrite Hl.
  - cbn [py_append rbind set_restrictedServices py_setitem py_getitem].
    rewrite dict_get_set_same. cbn [rbind py_contains].
    unfold dict_has. rewrite dict_get_set_same. cbn [negb rbind py_getitem].
    rewrite dict_get_set_same. cbn [rbind py_contains].
    rewrite existsb_app. cbn [existsb py_eq_str]. rewrite String.eqb_refl.
    rewrite orb_true_r. cbn [orb negb rbind py_iter].
    rewrite (filter_appended api services Hl).
    cbn [set_restrictedServices py_setitem rbind].
    rewrite !dict_set_set.
    rewrite (dict_set_get st "restrictedServices" (JList services) Hrs).
    now rewrite (dict_set_get d "status" (JObj st) Hst).
  - cbn [rbind py_getitem]. rewrite Hst. cbn [rbind py_contains].
    unfold dict_has. rewrite Hrs. cbn [negb rbind py_getitem]. rewrite Hrs.
    cbn [rbind py_contains]. fold listed. rewrite Hl. cbn [negb rbind py_iter].
    reflexivity.
Qed.

Lemma add_then_remove_when_listed_or_not_witness :
  add_then_remove "dialogflow.googleapis.com" restricting_perimeter
  = Ok restricting_perimeter.
Proof.
  apply (proj1 (add_then_remove_when_listed_or_not "dialogflow.googleapis.com"
           [("name", JStr "accessPolicies/1/servicePerimeters/demo");
            ("status",
             JObj [("resources", JList [JStr "projects/1"]);
                   ("restrictedServices",
                    JList [JStr "cloudfunctions.googleapis.com";
                           JStr "storage.googleapis.com"])])]
           [("resources", JList [JStr "projects/1"]);
            ("restrictedServices",
             JList [JStr "cloudfunctions.googleapis.com"; JStr "storage.googleapis.com"])]
           [JStr "cloudfunctions.googleapis.com"; JStr "storage.googleapis.com"]
           eq_refl eq_refl)).
  reflexivity.
Defined.

(** C4, as stated, fails on a perimeter that already restricts the api: the
    add is skipped, the remove deletes the api, and what is left is not the
    original perimeter up to the order of its restricted services. *)
Lemma add_then_remove_loses_listed_api :
  add_then_remove "cloudfunctions.googleapis.com" restricting_perimeter
  = Ok (JObj [("name", JStr "accessPolicies/1/servicePerimeters/demo");
              ("status",
               JObj [("resources", JList [JStr "projects/1"]);
                     ("restrictedServices", JList [JStr "storage.googleapis.com"])])])
  /\ ~ same_up_to_order
         (JObj [("name", JStr "accessPolicies/1/servicePerimeters/demo");
                ("status",
                 JObj [("resources", JList [JStr "projects/1"]);
                       ("restrictedServices", JList [JStr "storage.googleapis.com"])])])
         restricting_perimeter.
Proof.
  split; [reflexivity|].
  intros [Hperm _]. cbn in Hperm.
  apply Permutation_length in Hperm. discriminate.
Qed.

(** * Further properties of the views *)

(** ** What a view does before its first remote call *)

(** X1.  On each of the five views, when token acquisition answers with an
    error response, the view returns that response as it is and makes no
    other call. *)
Theorem token_failure_is_returned
    (py_format : json -> string) (w : world) (req : request) (resp : response) :
  ans_response (w _ get_token) = Some resp ->
  run w (update_webhook_access req) = (Returned resp, [Call get_token])
  /\ run w (update_webhook_ingress req) = (Returned resp, [Call get_token])
  /\ run w (update_security_perimeter_cloudfunctions req)
     = (Returned resp, [Call get_token])
  /\ run w (update_security_perimeter_dialogflow req)
     = (Returned resp, [Call get_token])
  /\ run w (update_service_directory_webhook_fulfillment py_format req)
     = (Returned resp, [Call get_token]).
Proof.
  intros Htok.
  unfold update_webhook_access, update_webhook_ingress,
    update_security_perimeter_cloudfunctions, update_security_perimeter_dialogflow,
    update_service_directory_webhook_fulfillment.
  rewrite !run_vis, Htok. repeat split.
Qed.

Lemma token_failure_is_returned_witness :
  run (refusing_world unauthorized)
    (update_webhook_access (set_status true webhook_args))
  = (Returned unauthorized, [Call get_token]).
Proof.
  apply (token_failure_is_returned (fun _ => "") (refusing_world unauthorized)
           (set_status true webhook_args) unauthorized eq_refl).
Defined.

(** X2.  A project_id that is present but empty counts as missing: on each of
    the five views, with a token and a body that carries a status, the answer
    is 200 with the BLOCKED body and token acquisition is the only call. *)
Theorem empty_project_id_is_blocked
    (py_format : json -> string) (w : world) (req : request)
    (token : string) (content_status : json) :
  w _ get_token = Answer None (Some token) ->
  py_getitem (get_json req) "status" = Ok content_status ->
  dict_get "project_id" (args req) = Some "" ->
  run w (update_webhook_access req) = (Returned BLOCKED, [Call get_token])
  /\ run w (update_webhook_ingress req) = (Returned BLOCKED, [Call get_token])
  /\ run w (update_security_perimeter_cloudfunctions req)
     = (Returned BLOCKED, [Call get_token])
  /\ run w (update_security_perimeter_dialogflow req)
     = (Returned BLOCKED, [Call get_token])
  /\ run w (update_service_directory_webhook_fulfillment py_format req)
     = (Returned BLOCKED, [Call get_token]).
Proof.
  intros Htok Hst Hproj.
  unfold update_webhook_access, update_webhook_ingress,
    update_security_perimeter_cloudfunctions, update_security_perimeter_dialogflow,
    update_service_directory_webhook_fulfillment.
  rewrite !run_vis, Htok. cbn [ans_response ans_key ans_value try].
  rewrite Hst, Hproj. cbn [try String.eqb run fst snd].
  repeat split.
Qed.

Lemma empty_project_id_is_blocked_witness :
  run (world_of (answers_for accepted))
    (update_webhook_ingress (set_status false [("project_id", ""); ("region", "r")]))
  = (Returned BLOCKED, [Call get_token]).
Proof.
  apply (empty_project_id_is_blocked (fun _ => "") (world_of (answers_for accepted))
           (set_status false [("project_id", ""); ("region", "r")]) "t0" (JBool false)
           eq_refl eq_refl eq_refl).
Defined.

(** X3.  The order of the first checks differs between the views.
    [update_webhook_access] and the fulfillment view read content['status']
    before they look at project_id: when that read raises (no JSON body, or
    a body without 'status'), the exception escapes the view even if
    project_id is missing.  [update_webhook_ingress] and the two perimeter
    views look at project_id first: without one they answer BLOCKED whatever
    the body is. *)
Theorem status_is_read_before_or_after_project_check
    (py_format : json -> string) (w : world) (req : request) (token : string) (e : exn) :
  w _ get_token = Answer None (Some token) ->
  py_getitem (get_json req) "status" = Raise e ->
  dict_get "project_id" (args req) = None ->
  run w (update_webhook_access req) = (Uncaught e, [Call get_token])
  /\ run w (update_service_directory_webhook_fulfillment py_format req)
     = (Uncaught e, [Call get_token])
  /\ run w (update_webhook_ingress req) = (Returned BLOCKED, [Call get_token])
  /\ run w (update_security_perimeter_cloudfunctions req)
     = (Returned BLOCKED, [Call get_token])
  /\ run w (update_security_perimeter_dialogflow req)
     = (Returned BLOCKED, [Call get_token]).
Proof.
  intros Htok Hst Hproj.
  unfold update_webhook_access, update_webhook_ingress,
    update_security_perimeter_cloudfunctions, update_security_perimeter_dialogflow,
    update_service_directory_webhook_fulfillment.
  rewrite !run_vis, Htok. cbn [ans_response ans_key ans_value try].
  rewrite Hst, Hproj. cbn [try run fst snd].
  repeat split.
Qed.

Lemma status_is_read_before_or_after_project_check_witness :
  run (world_of (answers_for accepted)) (update_webhook_access (Request [] JNull))
  = (Uncaught TypeError, [Call get_token])
  /\ run (world_of (answers_for accepted)) (update_webhook_ingress (Request [] JNull))
     = (Returned BLOCKED, [Call get_token]).
Proof.
  pose proof (status_is_read_before_or_after_project_check (fun _ => "")
                (world_of (answers_for accepted)) (Request [] JNull) "t0" TypeError
                eq_refl eq_refl eq_refl) as (Ha & _ & Hi & _).
  exact (conj Ha Hi).
Defined.

(** X4.  A query that names a project but lacks the next parameter the view
    reads (region for the two webhook views, access_policy_title for the
    perimeter views, bucket for the fulfillment view) ends the view with
    werkzeug's BadRequestKeyError for that parameter, before any remote
    call. *)
Theorem missing_query_parameter_raises
    (py_format : json -> string) (w : world) (req : request)
    (token project_id : string) (content_status : json) :
  w _ get_token = Answer None (Some token) ->
  py_getitem (get_json req) "status" = Ok content_status ->
  dict_get "project_id" (args req) = Some project_id ->
  project_id <> "" ->
  (dict_get "region" (args req) = None ->
   run w (update_webhook_access req)
   = (Uncaught (BadRequestKeyError "region"), [Call get_token])
   /\ run w (update_webhook_ingress req)
      = (Uncaught (BadRequestKeyError "region"), [Call get_token]))
  /\ (dict_get "access_policy_title" (args req) = None ->
      run w (update_security_perimeter_cloudfunctions req)
      = (Uncaught (BadRequestKeyError "access_policy_title"), [Call get_token])
      /\ run w (update_security_perimeter_dialogflow req)
         = (Uncaught (BadRequestKeyError "access_policy_title"), [Call get_token]))
  /\ (dict_get "bucket" (args req) = None ->
      run w (update_service_directory_webhook_fulfillment py_format req)
      = (Uncaught (BadRequestKeyError "bucket"), [Call get_token])).
Proof.
  intros Htok Hst Hproj Hne. apply String.eqb_neq in Hne.
  unfold update_webhook_access, update_webhook_ingress,
    update_security_perimeter_cloudfunctions, update_security_perimeter_dialogflow,
    update_service_directory_webhook_fulfillment.
  rewrite !run_vis, Htok. cbn [ans_response ans_key ans_value try].
  rewrite Hst, Hproj, Hne. cbn [try]. unfold args_item.
  split; [|split]; intros Hmissing; rewrite Hmissing; try split; reflexivity.
Qed.

Lemma missing_query_parameter_raises_witness :
  run (world_of (answers_for accepted))
    (update_webhook_access (set_status true [("project_id", "p1")]))
  = (Uncaught (BadRequestKeyError "region"), [Call get_token]).
Proof.
  apply (missing_query_parameter_raises (fun _ => "") (world_of (answers_for accepted))
           (set_status true [("project_id", "p1")]) "t0" "p1" (JBool true)
           eq_refl eq_refl eq_refl).
  - discriminate.
  - reflexivity.
Defined.

(** ** What the webhook views do after their fetch *)

Lemma webhook_request_denying d :
  webhook_request denying_world (set_status d webhook_args)
    "t0" "p1" "us-central1" "hook" (JBool d).
Proof. constructor; try reflexivity. discriminate. Defined.

Lemma access_rejection_aborts_witness :
  run denying_world (update_webhook_access (set_status false webhook_args))
  = (Aborted 403,
     fetched_only (getIamPolicy_url "p1" "us-central1" "hook") (auth_headers "p1" "t0")).
Proof.
  apply (access_rejection_aborts denying_world (set_status false webhook_args)
           "t0" "p1" "us-central1" "hook" (JBool false) 403 "denied"
           (Ok (JObj [("error", JStr "denied")]))
           (webhook_request_denying false) eq_refl).
  discriminate.
Defined.

Lemma ingress_rejection_forwards_witness :
  run denying_world (update_webhook_ingress (set_status false webhook_args))
  = (Returned (Response 403 (Text "denied")),
     fetched_only (function_url "p1" "us-central1" "hook") (ingress_headers "p1" "t0")).
Proof.
  apply (ingress_rejection_forwards denying_world (set_status false webhook_args)
           "t0" "p1" "us-central1" "hook" (JBool false) 403 "denied"
           (Ok (JObj [("error", JStr "denied")]))
           (webhook_request_denying false) eq_refl).
  discriminate.
Defined.

(** X7.  [update_webhook_access] after a successful fetch.  When the
    evaluator computes a policy, the view posts it once, under the key
    'policy', to the setIamPolicy url with the headers of the fetch; it
    answers 200 when the post is accepted and aborts with the upstream code
    when it is not.  When the fetched body is not JSON, or the evaluator
    raises, the exception escapes and nothing is posted. *)
Theorem access_posts_the_computed_policy
    (w : world) (req : request) (token project_id region webhook_name txt : string)
    (v : json) (decoded : result json) :
  webhook_request w req token project_id region webhook_name v ->
  w _ (requests_get (getIamPolicy_url project_id region webhook_name)
         (auth_headers project_id token)) = HttpResponse 200 txt decoded ->
  let fetched := fetched_only (getIamPolicy_url project_id region webhook_name)
                   (auth_headers project_id token) in
  (forall P P',
     decoded = Ok P -> invoker_binding_evaluator v P = Ok (Mutate P') ->
     let post := requests_post (setIamPolicy_url project_id region webhook_name)
                   (auth_headers project_id token) (JObj [("policy", P')]) in
     run w (update_webhook_access req)
     = (if (status_code (w _ post) =? 200)%Z then Returned OK200
        else Aborted (status_code (w _ post)),
        (fetched ++ [Call post])%list))
  /\ (forall P e,
        decoded = Ok P -> invoker_binding_evaluator v P = Raise e ->
        run w (update_webhook_access req) = (Uncaught e, fetched))
  /\ (forall e,
        decoded = Raise e ->
        run w (update_webhook_access req) = (Uncaught e, fetched)).
Proof.
  intros Hreq Hget fetched.
  split; [|split].
  - intros P P' -> Heval post.
    rewrite (run_update_webhook_access w req token project_id region webhook_name
               v txt P Hreq Hget), Heval.
    cbn zeta. fold post. now destruct (status_code (w _ post) =? 200)%Z.
  - intros P e -> Heval.
    now rewrite (run_update_webhook_access w req token project_id region webhook_name
                   v txt P Hreq Hget), Heval.
  - intros e ->. destruct Hreq as [Htok Hproj Hne Hreg Hhook Hst].
    unfold update_webhook_access. rewrite run_vis, Htok.
    cbn [ans_response ans_key ans_value try]. rewrite Hst. cbn [try]. rewrite Hproj.
    apply String.eqb_neq in Hne. rewrite Hne.
    unfold args_item. rewrite Hreg, Hhook. cbn [try].
    rewrite run_vis, Hget. reflexivity.
Qed.

Lemma webhook_request_read_only d :
  webhook_request read_only_world (set_status d webhook_args)
    "t0" "p1" "us-central1" "hook" (JBool d).
Proof. constructor; try reflexivity. discriminate. Defined.

Lemma access_posts_the_computed_policy_witness :
  run read_only_world (update_webhook_access (set_status true webhook_args))
  = (Aborted 403,
     [Call get_token;
      Call (requests_get (getIamPolicy_url "p1" "us-central1" "hook")
              (auth_headers "p1" "t0"));
      Call (requests_post (setIamPolicy_url "p1" "us-central1" "hook")
              (auth_headers "p1" "t0")
              (JObj [("policy", JObj [("bindings", JList [fresh_invoker_binding []])])]))]).
Proof.
  apply (proj1 (access_posts_the_computed_policy read_only_world
                  (set_status true webhook_args) "t0" "p1" "us-central1" "hook" ""
                  (JBool true) (Ok public_policy)
                  (webhook_request_read_only true) eq_refl)
           public_policy (JObj [("bindings", JList [fresh_invoker_binding []])])
           eq_refl eq_refl).
Defined.

(** X8.  [update_webhook_ingress] after a successful fetch, for any value of
    the body's status (its truth value picks the setting).  A descriptor
    without 'ingressSettings' raises KeyError and nothing is patched.  A
    descriptor whose setting differs is patched once, to the url of the
    fetch; the view answers 200 when the patch is accepted and forwards the
    upstream status code and text when it is not. *)
Theorem ingress_patch_outcome
    (w : world) (req : request) (token project_id region webhook_name txt : string)
    (v : json) (descriptor : dict json) :
  webhook_request w req token project_id region webhook_name v ->
  w _ (requests_get (function_url project_id region webhook_name)
         (ingress_headers project_id token))
  = HttpResponse 200 txt (Ok (JObj descriptor)) ->
  let url := function_url project_id region webhook_name in
  let headers := ingress_headers project_id token in
  let desired := if truthy v then "ALLOW_INTERNAL_ONLY" else "ALLOW_ALL" in
  (dict_get "ingressSettings" descriptor = None ->
   run w (update_webhook_ingress req)
   = (Uncaught (KeyError "ingressSettings"), fetched_only url headers))
  /\ (forall current,
        dict_get "ingressSettings" descriptor = Some current ->
        current <> JStr desired ->
        let patch := requests_patch url headers
                       (JObj (dict_set "ingressSettings" (JStr desired) descriptor)) [] in
        run w (update_webhook_ingress req)
        = (if (status_code (w _ patch) =? 200)%Z then Returned OK200
           else Returned (Response (status_code (w _ patch)) (Text (text (w _ patch)))),
           (fetched_only url headers ++ [Call patch])%list)).
Proof.
  intros [Htok Hproj Hne Hreg Hhook Hst] Hget url headers desired.
  subst url headers. apply String.eqb_neq in Hne.
  split.
  - intros Hno. unfold update_webhook_ingress. rewrite run_vis, Htok.
    cbn [ans_response ans_key ans_value try]. rewrite Hproj, Hne.
    unfold args_item. rewrite Hreg, Hhook. cbn [try]. rewrite Hst. cbn [try].
    rewrite run_vis, Hget.
    cbn [status_code r_json negb Z.eqb Pos.eqb try fst snd py_getitem].
    rewrite Hno. reflexivity.
  - intros current Hcur Hdiff patch. subst patch.
    unfold update_webhook_ingress. rewrite run_vis, Htok.
    cbn [ans_response ans_key ans_value try]. rewrite Hproj, Hne.
    unfold args_item. rewrite Hreg, Hhook. cbn [try]. rewrite Hst. cbn [try].
    rewrite run_vis, Hget.
    cbn [status_code r_json negb Z.eqb Pos.eqb try fst snd py_getitem].
    rewrite Hcur. cbn [try]. unfold ingress_settings_of. fold desired.
    destruct (py_eq_str current desired) eqn:Heq.
    { apply py_eq_str_iff in Heq. contradiction. }
    cbn [py_setitem try]. rewrite run_vis. cbn [fst snd].
    now destruct (status_code _ =? 200)%Z.
Qed.

Lemma webhook_request_frozen d :
  webhook_request frozen_world (set_status d webhook_args)
    "t0" "p1" "us-central1" "hook" (JBool d).
Proof. constructor; try reflexivity. discriminate. Defined.

Lemma ingress_patch_outcome_witness :
  fst (run frozen_world (update_webhook_ingress (set_status true webhook_args)))
  = Returned (Response 403 (Text "denied")).
Proof.
  apply (f_equal fst
           (proj2 (ingress_patch_outcome frozen_world (set_status true webhook_args)
                     "t0" "p1" "us-central1" "hook" "" (JBool true) open_function
                     (webhook_request_frozen true) eq_refl)
              (JStr "ALLOW_ALL") eq_refl ltac:(discriminate))).
Defined.

(** ** What a mutation of the policy changes *)

Lemma reconcile_on_full_policy_witness :
  exists P', reconcile_invoker (JBool false) tagged_policy = Ok P'
             /\ is_policy P' = true
             /\ allUsersIsInvoker P' = true.
Proof. apply (reconcile_on_full_policy false tagged_policy). reflexivity. Defined.

Lemma evaluator_without_bindings_witness :
  invoker_binding_evaluator (JBool false) (JObj [("etag", JStr "BwYJ")])
  = Ok (Mutate (JObj [("etag", JStr "BwYJ");
                      ("bindings", JList [fresh_invoker_binding [JStr "allUsers"]])])).
Proof.
  apply (evaluator_without_bindings false [("etag", JStr "BwYJ")]). reflexivity.
Defined.

Lemma edited_in_place_fields d walked bindings' :
  exists d', edited_in_place (JObj d) walked bindings' = JObj d'
             /\ (forall k, k <> "bindings" -> dict_get k d' = dict_get k d)
             /\ (dict_has "bindings" d = true -> dict_has "bindings" d' = true).
Proof.
  unfold edited_in_place.
  destruct walked; try solve [exists d; repeat split; auto].
  destruct (dict_has "bindings" d) eqn:Hhas.
  - eexists. split; [reflexivity|]. split.
    + intros k Hk. apply dict_get_set_other. congruence.
    + intros _. unfold dict_has. now rewrite dict_get_set_same.
  - exists d. repeat split; auto. discriminate.
Qed.

Arguments edited_in_place : simpl never.

Lemma remove_allUsers_fields P P' :
  remove_allUsers P = Ok P' ->
  exists d d', P = JObj d /\ P' = JObj d'
               /\ forall k, k <> "bindings" -> dict_get k d' = dict_get k d.
Proof.
  unfold remove_allUsers. destruct P as [| | | | |?|d]; try discriminate.
  destruct (py_get (JObj d) "bindings" (JList [])) as [bs|]; cbn [rbind]; [|discriminate].
  destruct (py_iter bs) as [elems|]; cbn [rbind]; [|discriminate].
  destruct (mapM strip_binding elems) as [elems'|]; cbn [rbind]; [|discriminate].
  intros [= <-]. destruct (edited_in_place_fields d bs elems') as (d' & -> & Hd' & _).
  now exists d, d'.
Qed.

Lemma add_allUsers_fields P P' :
  add_allUsers P = Ok P' ->
  exists d d', P = JObj d /\ P' = JObj d'
               /\ forall k, k <> "bindings" -> dict_get k d' = dict_get k d.
Proof.
  unfold add_allUsers. destruct P as [| | | |s|l|d]; try discriminate.
  1,2: cbn [py_contains rbind];
    match goal with |- context [if ?c then _ else _] => destruct c end;
    cbn; discriminate.
  cbn [py_contains rbind].
  set (empty := if dict_has "bindings" d then _ else _).
  destruct empty as [empty|]; cbn [rbind]; [|discriminate].
  assert (Hp1 : exists d1,
            (if empty
             then py_setitem (JObj d) "bindings" (JList [fresh_invoker_binding []])
             else Ok (JObj d)) = Ok (JObj d1)
            /\ forall k, k <> "bindings" -> dict_get k d1 = dict_get k d).
  { destruct empty; cbn [py_setitem].
    - eexists. split; [reflexivity|]. intros k Hk. apply dict_get_set_other. congruence.
    - now exists d. }
  destruct Hp1 as (d1 & -> & Hd1). cbn [rbind py_getitem].
  destruct (dict_get "bindings" d1) as [bs|]; cbn [rbind]; [|discriminate].
  destruct (py_iter bs) as [elems|]; cbn [rbind]; [|discriminate].
  destruct (grant_bindings false elems) as [[flag elems']|]; cbn [rbind]; [|discriminate].
  destruct (edited_in_place_fields d1 bs elems') as (d2 & -> & Hd2 & _).
  destruct flag.
  - intros [= <-]. exists d, d2. repeat split. intros k Hk.
    now rewrite (Hd2 k Hk), (Hd1 k Hk).
  - cbn [py_getitem]. destruct (dict_get "bindings" d2) as [bs2|]; cbn [rbind];
      [|discriminate].
    destruct (py_append bs2 _) as [bs3|]; cbn [rbind py_setitem]; [|discriminate].
    intros [= <-]. exists d. eexists. repeat split. intros k Hk.
    rewrite dict_get_set_other by congruence.
    now rewrite (Hd2 k Hk), (Hd1 k Hk).
Qed.

(** X11.  Whatever the fetched value and whatever the desired state, a
    policy the evaluator computes differs from the fetched one in its
    'bindings' entry only: every other entry (the etag, the version) is sent
    back as it was fetched. *)
Theorem mutation_changes_only_bindings (v P P' : json) :
  invoker_binding_evaluator v P = Ok (Mutate P') ->
  exists d d', P = JObj d /\ P' = JObj d'
               /\ forall k, k <> "bindings" -> dict_get k d' = dict_get k d.
Proof.
  unfold invoker_binding_evaluator.
  destruct (allUsers_is_invoker_member P) as [found|]; cbn [rbind]; [|discriminate].
  destruct (no_change_needed v found); [discriminate|].
  destruct (truthy v).
  - destruct (remove_allUsers P) as [Q|] eqn:Hrm; cbn [rbind]; [|discriminate].
    intros [= <-]. now apply remove_allUsers_fields.
  - destruct (add_allUsers P) as [Q|] eqn:Hadd; cbn [rbind]; [|discriminate].
    intros [= <-]. now apply add_allUsers_fields.
Qed.

Lemma mutation_changes_only_bindings_witness :
  exists d d', tagged_policy = JObj d
               /\ JObj [("version", JInt 1);
                        ("etag", JStr "BwYJ");
                        ("bindings",
                         JList [JObj [("role", JStr "roles/viewer");
                                      ("members", JList [JStr "allUsers";
                                                         JStr "user:a@example.com"])];
                                JObj [("role", JStr INVOKER);
                                      ("members",
                                       JList [JStr "serviceAccount:sa@example.com";
                                              JStr "allUsers"])]])] = JObj d'
               /\ forall k, k <> "bindings" -> dict_get k d' = dict_get k d.
Proof.
  apply (mutation_changes_only_bindings (JBool false) tagged_policy). reflexivity.
Defined.

(** X12.  The evaluator never computes a policy equal to the fetched one:
    whenever it asks for a mutation, the policy it sends differs from the
    policy it read. *)
Theorem mutation_is_never_a_noop (v P P' : json) :
  invoker_binding_evaluator v P = Ok (Mutate P') -> P' <> P.
Proof.
  unfold invoker_binding_evaluator.
  destruct (allUsers_is_invoker_member P) as [found|] eqn:Hscan; cbn [rbind];
    [|discriminate].
  unfold no_change_needed.
  destruct (truthy v), found; cbn [negb andb orb]; try discriminate.
  - destruct (remove_allUsers P) as [Q|] eqn:Hrm; cbn [rbind]; [|discriminate].
    intros [= <-] ->. pose proof (remove_allUsers_scan P P Hscan Hrm) as H.
    rewrite Hscan in H. discriminate.
  - destruct (add_allUsers P) as [Q|] eqn:Hadd; cbn [rbind]; [|discriminate].
    intros [= <-] ->. pose proof (add_allUsers_scan P P Hscan Hadd) as H.
    rewrite Hscan in H. discriminate.
Qed.

Lemma mutation_is_never_a_noop_witness :
  JObj [("bindings", JList [fresh_invoker_binding []])] <> public_policy.
Proof.
  apply (mutation_is_never_a_noop (JBool true) public_policy). reflexivity.
Defined.

Lemma strip_binding_closed_form b :
  is_binding b = true -> strip_binding b = Ok (without_allUsers b).
Proof.
  destruct b as [| | | | |?|d]; try discriminate. cbn [is_binding without_allUsers].
  unfold dict_has. destruct (dict_get "role" d) as [role|] eqn:Hrole; [|discriminate].
  cbn [andb]. unfold strip_binding. cbn [py_get].
  destruct (dict_get "members" d) as [[| | | | |ms|]|] eqn:Hms; try discriminate; intros _.
  2:{ reflexivity. }
  cbn [rbind py_iter]. destruct ms as [|m rest]; cbn [foldM].
  { destruct (py_eq_str role INVOKER); [|reflexivity].
    cbn [filter]. now rewrite (dict_set_get d "members" (JList []) Hms). }
  unfold strip_round at 1. cbn [py_getitem]. rewrite Hrole. cbn [rbind].
  destruct (py_eq_str role INVOKER) eqn:Hinv.
  - rewrite Hms. cbn [rbind py_iter py_setitem].
    set (kept := filter not_allUsers (m :: rest)).
    apply foldM_fixed.
    intros x. unfold strip_round. cbn [py_getitem].
    rewrite dict_get_set_other by discriminate. rewrite Hrole. cbn [rbind].
    rewrite Hinv, dict_get_set_same. cbn [rbind py_iter py_setitem].
    unfold kept. now rewrite filter_filter, dict_set_set.
  - cbn [rbind]. apply foldM_fixed.
    intros x. unfold strip_round. cbn [py_getitem]. rewrite Hrole. cbn [rbind].
    now rewrite Hinv.
Qed.

Lemma strip_bindings_closed_form bs :
  forallb is_binding bs = true -> mapM strip_binding bs = Ok (map without_allUsers bs).
Proof.
  induction bs as [|b bs IH]; cbn [forallb mapM map]; [reflexivity|].
  intros [Hb Hbs]%andb_prop.
  now rewrite (strip_binding_closed_form b Hb), (IH Hbs).
Qed.

(** X13.  Restricting a publicly invokable function.  On an IAM policy in
    which "allUsers" is an invoker member, desired internal_only=true makes
    the evaluator send the fetched policy with each invoker binding's member
    list replaced by the same list without "allUsers", the other members in
    their order.  Every binding stays at its place, and a binding of another
    role is sent back as fetched, "allUsers" included. *)
Theorem restricting_filters_every_invoker_binding (fields : dict json) (bs : list json) :
  is_policy (JObj fields) = true ->
  dict_get "bindings" fields = Some (JList bs) ->
  allUsersIsInvoker (JObj fields) = true ->
  invoker_binding_evaluator (JBool true) (JObj fields)
  = Ok (Mutate (JObj (dict_set "bindings" (JList (map without_allUsers bs)) fields)))
  /\ (forall b, is_invoker_binding b = false -> without_allUsers b = b).
Proof.
  intros HP Hbs Hfound. split.
  - unfold invoker_binding_evaluator. rewrite (scan_policy_spec _ HP), Hfound.
    cbn [rbind no_change_needed truthy negb andb orb].
    unfold remove_allUsers. cbn [py_get]. rewrite Hbs. cbn [rbind py_iter].
    cbn [is_policy] in HP. rewrite Hbs in HP.
    rewrite (strip_bindings_closed_form bs HP). cbn [rbind].
    unfold edited_in_place, dict_has. now rewrite Hbs.
  - intros [| | | | |?|d]; try reflexivity. cbn [is_invoker_binding without_allUsers].
    destruct (dict_get "role" d) as [role|]; [|reflexivity].
    intros ->. now destruct (dict_get "members" d) as [[]|].
Qed.

Lemma restricting_filters_every_invoker_binding_witness :
  invoker_binding_evaluator (JBool true) (JObj (policy_fields public_bindings))
  = Ok (Mutate
          (JObj (policy_fields
                   [JObj [("role", JStr "roles/viewer");
                          ("members", JList [JStr "allUsers"])];
                    JObj [("role", JStr INVOKER);
                          ("members", JList [JStr "user:a@example.com"])]]))).
Proof.
  apply (proj1 (restricting_filters_every_invoker_binding
                  (policy_fields public_bindings) public_bindings
                  eq_refl eq_refl eq_refl)).
Defined.

Lemma grant_binding_closed_form b :
  is_binding b = true -> has_members b = true ->
  grant_binding b = Ok (is_invoker_binding b, with_allUsers b).
Proof.
  destruct b as [| | | | |?|d]; try discriminate.
  cbn [is_binding has_members is_invoker_binding with_allUsers].
  unfold dict_has. destruct (dict_get "role" d) as [role|] eqn:Hrole; [|discriminate].
  destruct (dict_get "members" d) as [[| | | | |ms|]|] eqn:Hms; try discriminate.
  intros _ _. unfold grant_binding. cbn [py_getitem]. rewrite Hrole. cbn [rbind].
  destruct (py_eq_str role INVOKER); [|reflexivity].
  rewrite Hms. reflexivity.
Qed.

Lemma grant_bindings_closed_form bs : forall acc,
  forallb is_binding bs = true -> forallb has_members bs = true ->
  grant_bindings acc bs
  = Ok (existsb is_invoker_binding bs || acc, map with_allUsers bs).
Proof.
  induction bs as [|b bs IH]; intros acc; cbn [forallb grant_bindings existsb map].
  - reflexivity.
  - intros [Hb Hbs]%andb_prop [Hm Hms]%andb_prop.
    rewrite (grant_binding_closed_form b Hb Hm). cbn [rbind].
    rewrite (IH _ Hbs Hms). cbn [rbind].
    do 2 f_equal. destruct (is_invoker_binding b), (existsb is_invoker_binding bs), acc;
      reflexivity.
Qed.

(** X14.  Opening a function to the public.  On a policy with at least one
    binding, each carrying its role and its members, in which "allUsers" is
    not an invoker member, desired internal_only=false makes the evaluator
    send the fetched policy with "allUsers" appended to the members of every
    invoker binding (all of them, when the role occurs more than once); when
    no binding has the invoker role, one binding for it with the single
    member "allUsers" is appended after the others.  Bindings of other roles
    are sent back as fetched. *)
Theorem opening_appends_to_every_invoker_binding (fields : dict json) (bs : list json) :
  is_full_policy (JObj fields) = true ->
  dict_get "bindings" fields = Some (JList bs) ->
  bs <> [] ->
  allUsersIsInvoker (JObj fields) = false ->
  invoker_binding_evaluator (JBool false) (JObj fields)
  = Ok (Mutate
          (JObj (dict_set "bindings"
                   (JList (map with_allUsers bs
                           ++ (if existsb is_invoker_binding bs then []
                               else [fresh_invoker_binding [JStr "allUsers"]])))
                   fields)))
  /\ (forall b, is_invoker_binding b = false -> with_allUsers b = b).
Proof.
  intros Hfull Hbs Hne Hfound. split.
  - pose proof Hfull as [HP Hmem]%andb_prop.
    unfold invoker_binding_evaluator. rewrite (scan_policy_spec _ HP), Hfound.
    cbn [rbind no_change_needed truthy negb andb orb].
    unfold add_allUsers. cbn [py_contains]. unfold dict_has. rewrite Hbs.
    cbn [rbind py_getitem]. rewrite Hbs. cbn [rbind py_len].
    destruct bs as [|b0 rest]; [contradiction|]. cbn [List.length Nat.eqb rbind py_getitem].
    rewrite Hbs. cbn [rbind py_iter].
    cbn [is_policy] in HP. rewrite Hbs in HP, Hmem.
    rewrite (grant_bindings_closed_form (b0 :: rest) false HP Hmem). cbn [rbind].
    rewrite orb_false_r. unfold edited_in_place, dict_has. rewrite Hbs.
    destruct (existsb is_invoker_binding (b0 :: rest)).
    + now rewrite app_nil_r.
    + cbn [py_getitem]. rewrite dict_get_set_same. cbn [rbind py_append py_setitem].
      now rewrite dict_set_set.
  - intros [| | | | |?|d]; try reflexivity. cbn [is_invoker_binding with_allUsers].
    destruct (dict_get "role" d) as [role|]; [|reflexivity].
    intros ->. now destruct (dict_get "members" d) as [[]|].
Qed.

Lemma opening_appends_to_every_invoker_binding_witness :
  invoker_binding_evaluator (JBool false) (JObj (policy_fields private_bindings))
  = Ok (Mutate
          (JObj (policy_fields
                   [fresh_invoker_binding [JStr "user:a@example.com"; JStr "allUsers"];
                    JObj [("role", JStr "roles/viewer"); ("members", JList [])];
                    fresh_invoker_binding [JStr "allUsers"]]))).
Proof.
  apply (proj1 (opening_appends_to_every_invoker_binding
                  (policy_fields private_bindings) private_bindings
                  eq_refl eq_refl ltac:(discriminate) eq_refl)).
Defined.

(** ** The perimeter evaluator on its own *)

Lemma prefix_refl s : String.prefix s s = true.
Proof.
  induction s as [|a s IH]; cbn; [reflexivity|].
  destruct (ascii_dec a a); [exact IH | contradiction].
Qed.

Lemma is_substring_refl s : is_substring s s = true.
Proof.
  unfold is_substring. destruct s as [|a s]; [reflexivity|].
  cbn [String.index]. now rewrite prefix_refl.
Qed.

Lemma not_listed_after_filter (api : string) (l : list json) :
  existsb (fun v => py_eq_str v api)
    (filter (fun service => negb (py_eq_str service api)) l) = false.
Proof.
  induction l as [|x l IH]; cbn; [reflexivity|].
  destruct (py_eq_str x api) eqn:E; cbn; [|rewrite E]; exact IH.
Qed.

(** X15.  The perimeter evaluator is idempotent, whatever the perimeter and
    whatever the desired value: once it has edited the perimeter, a second
    call with the same arguments on the edited perimeter returns the
    response that ends the view and edits nothing.  This holds as well for
    the str that line 145 stores, since an api name is found in itself. *)
Theorem perimeter_evaluator_idempotent (api : string) (v S S' : json) :
  update_service_perimeter_status_inplace api v S = Ok (None, S') ->
  update_service_perimeter_status_inplace api v S' = Ok (Some OK200, S').
Proof.
  unfold update_service_perimeter_status_inplace.
  destruct S as [| | | | |?|d]; try (destruct (py_eq_bool v false); discriminate).
  cbn [py_getitem].
  destruct (dict_get "status" d) as [st|] eqn:Hst;
    [|destruct (py_eq_bool v false); discriminate].
  destruct (py_eq_bool v false); cbn [rbind].
  - destruct (py_contains "restrictedServices" st) as [[]|]; cbn [rbind negb];
      try discriminate.
    destruct st as [| | | | |?|std]; try discriminate. cbn [py_getitem].
    destruct (dict_get "restrictedServices" std) as [services|]; cbn [rbind];
      [|discriminate].
    destruct (py_contains api services) as [[]|]; cbn [rbind negb]; try discriminate.
    destruct (py_iter services) as [items|]; cbn [rbind]; [|discriminate].
    cbn [set_restrictedServices py_setitem rbind]. intros [= <-].
    cbn [py_getitem]. rewrite dict_get_set_same. cbn [rbind py_contains].
    unfold dict_has. rewrite dict_get_set_same. cbn [negb rbind py_getitem].
    rewrite dict_get_set_same. cbn [rbind py_contains].
    now rewrite not_listed_after_filter.
  - destruct (py_contains "restrictedServices" st) as [[]|] eqn:Hpresent;
      cbn [rbind negb]; try discriminate.
    + destruct st as [| | | | |?|std]; try discriminate. cbn [py_getitem].
      destruct (dict_get "restrictedServices" std) as [services|]; cbn [rbind];
        [|discriminate].
      destruct (py_contains api services) as [[]|]; cbn [rbind]; try discriminate.
      destruct services as [| | | | |l|]; try discriminate.
      cbn [py_append set_restrictedServices py_setitem rbind]. intros [= <-].
      cbn [py_getitem]. rewrite dict_get_set_same. cbn [rbind py_contains].
      unfold dict_has. rewrite dict_get_set_same. cbn [negb rbind py_getitem].
      rewrite dict_get_set_same. cbn [rbind py_contains].
      rewrite existsb_app. cbn [existsb py_eq_str]. rewrite String.eqb_refl.
      now rewrite orb_true_r.
    + destruct st as [| | | | |?|std]; try discriminate.
      cbn [set_restrictedServices py_setitem rbind]. intros [= <-].
      cbn [py_getitem]. rewrite dict_get_set_same. cbn [rbind py_contains].
      unfold dict_has. rewrite dict_get_set_same. cbn [negb rbind py_getitem].
      rewrite dict_get_set_same. cbn [rbind py_contains].
      now rewrite is_substring_refl.
Qed.

Lemma perimeter_evaluator_idempotent_witness :
  update_service_perimeter_status_inplace "x.googleapis.com" (JBool true)
    (JObj [("status", JObj [("restrictedServices", JStr "x.googleapis.com")])])
  = Ok (Some OK200,
        JObj [("status", JObj [("restrictedServices", JStr "x.googleapis.com")])]).
Proof.
  apply (perimeter_evaluator_idempotent "x.googleapis.com" (JBool true)
           (JObj [("status", JObj [])])).
  reflexivity.
Defined.

Lemma dict_remove_set {V} (k : string) (v : V) (d : dict V) :
  dict_remove k (dict_set k v d) = dict_remove k d.
Proof.
  induction d as [|[k' v'] d IH]; cbn.
  - now rewrite String.eqb_refl.
  - destruct (String.eqb k' k) eqn:E; cbn.
    + now rewrite String.eqb_refl.
    + now rewrite E, IH.
Qed.

(** X16.  The perimeter evaluator on a perimeter whose status lists its
    restricted services.  It returns the response that ends the view, and
    leaves the perimeter as it is, exactly when the api is listed and wanted
    or unlisted and unwanted.  Otherwise it returns nothing and edits the
    list: a wanted api goes to the end of the list, an unwanted one loses
    every occurrence, and the other services keep their order.  Either way
    the api is listed afterwards exactly when it is wanted, and nothing else
    of the perimeter changes. *)
Theorem perimeter_evaluator_reconciles
    (api : string) (d : bool) (fields st : dict json) (l : list json) :
  dict_get "status" fields = Some (JObj st) ->
  dict_get "restrictedServices" st = Some (JList l) ->
  let listed := existsb (fun v => py_eq_str v api) l in
  exists r S',
    update_service_perimeter_status_inplace api (JBool d) (JObj fields) = Ok (r, S')
    /\ (r = Some OK200 <-> listed = d)
    /\ (r = None <-> listed <> d)
    /\ (listed = d -> S' = JObj fields)
    /\ restricted_services S'
       = (if Bool.eqb listed d then l
          else if d then (l ++ [JStr api])%list
               else filter (fun service => negb (py_eq_str service api)) l)
    /\ existsb (fun v => py_eq_str v api) (restricted_services S') = d
    /\ other_fields S' = other_fields (JObj fields).
Proof.
  intros Hst Hrs listed.
  assert (Hself : restricted_services (JObj fields) = l).
  { cbn [restricted_services]. now rewrite Hst, Hrs. }
  assert (Hedit : forall l',
    restricted_services
      (JObj (dict_set "status" (JObj (dict_set "restrictedServices" (JList l') st)) fields))
    = l'
    /\ other_fields
         (JObj (dict_set "status" (JObj (dict_set "restrictedServices" (JList l') st))
                  fields))
       = other_fields (JObj fields)).
  { intros l'. cbn [restricted_services other_fields].
    rewrite !dict_get_set_same, Hst. split; [reflexivity|].
    now rewrite dict_remove_set, dict_set_set. }
  unfold update_service_perimeter_status_inplace.
  cbn [py_eq_bool py_getitem]. rewrite Hst. cbn [rbind py_contains].
  unfold dict_has. rewrite Hrs. cbn [negb rbind py_getitem]. rewrite Hrs.
  cbn [rbind py_contains py_iter py_append set_restrictedServices py_setitem].
  fold listed. destruct d, listed eqn:Hl; cbn [Bool.eqb negb rbind].
  - exists (Some OK200), (JObj fields). rewrite Hself.
    repeat split; auto; try discriminate. intros H. now contradiction H.
  - eexists None, _. split; [reflexivity|]. destruct (Hedit (l ++ [JStr api])%list) as [-> ->].
    repeat split; auto; try discriminate.
    rewrite existsb_app. cbn. rewrite String.eqb_refl. now rewrite orb_true_r.
  - eexists None, _. split; [reflexivity|].
    destruct (Hedit (filter (fun service => negb (py_eq_str service api)) l)) as [-> ->].
    repeat split; auto; try discriminate. apply not_listed_after_filter.
  - exists (Some OK200), (JObj fields). rewrite Hself.
    repeat split; auto; try discriminate. intros H. now contradiction H.
Qed.

Lemma perimeter_evaluator_reconciles_witness :
  exists r S',
    update_service_perimeter_status_inplace "storage.googleapis.com" (JBool false)
      restricting_perimeter = Ok (r, S')
    /\ (r = Some OK200 <-> true = false)
    /\ (r = None <-> true <> false)
    /\ (true = false -> S' = restricting_perimeter)
    /\ restricted_services S' = [JStr "cloudfunctions.googleapis.com"]
    /\ existsb (fun v => py_eq_str v "storage.googleapis.com") (restricted_services S')
       = false
    /\ other_fields S' = other_fields restricting_perimeter.
Proof.
  apply (perimeter_evaluator_reconciles "storage.googleapis.com" false
           [("name", JStr "accessPolicies/1/servicePerimeters/demo");
            ("status",
             JObj [("resources", JList [JStr "projects/1"]);
                   ("restrictedServices",
                    JList [JStr "cloudfunctions.googleapis.com";
                           JStr "storage.googleapis.com"])])]
           [("resources", JList [JStr "projects/1"]);
            ("restrictedServices",
             JList [JStr "cloudfunctions.googleapis.com"; JStr "storage.googleapis.com"])]
           [JStr "cloudfunctions.googleapis.com"; JStr "storage.googleapis.com"]
           eq_refl eq_refl).
Defined.

(** ** The perimeter views *)

(** X17.  [update_security_perimeter] after the perimeter is fetched.  When
    the evaluator raises, the exception escapes; when it returns a response,
    the view returns it; in both cases the fetch is the only call.  When the
    evaluator has edited the perimeter, the view asks for the data uri: an
    answer that carries an error response makes the view return the helper's
    dict itself, and nothing is patched; an answer without 'uri' raises
    KeyError; otherwise the edited perimeter is patched once at that uri
    with the update mask status.restrictedServices, and the view answers 200
    when the patch is accepted and forwards the upstream code and text when
    it is not. *)
Theorem perimeter_view_after_evaluation
    (w : world) (token api : string) (v : json) (project_id access_policy_name : string) :
  let fetch := get_service_perimeter_status token project_id access_policy_name in
  let lookup := get_service_perimeter_data_uri token project_id access_policy_name in
  let view := update_security_perimeter token api v project_id access_policy_name in
  (forall e,
     update_service_perimeter_status_inplace api v (w _ fetch) = Raise e ->
     run w view = (Uncaught e, [Call fetch]))
  /\ (forall resp S1,
        update_service_perimeter_status_inplace api v (w _ fetch) = Ok (Some resp, S1) ->
        run w view = (Returned resp, [Call fetch]))
  /\ (forall S',
        update_service_perimeter_status_inplace api v (w _ fetch) = Ok (None, S') ->
        (forall resp, ans_response (w _ lookup) = Some resp ->
           run w view = (ReturnedAnswer (w _ lookup), [Call fetch; Call lookup]))
        /\ (ans_response (w _ lookup) = None -> ans_value (w _ lookup) = None ->
            run w view = (Uncaught (KeyError "uri"), [Call fetch; Call lookup]))
        /\ (forall uri,
              ans_response (w _ lookup) = None -> ans_value (w _ lookup) = Some uri ->
              let patch := requests_patch uri (auth_headers project_id token) S'
                             [("updateMask", "status.restrictedServices")] in
              run w view
              = (if (status_code (w _ patch) =? 200)%Z then Returned OK200
                 else Returned (Response (status_code (w _ patch))
                                  (Text (text (w _ patch)))),
                 [Call fetch; Call lookup; Call patch]))).
Proof.
  intros fetch lookup view. subst view. unfold update_security_perimeter.
  fold fetch lookup. rewrite run_vis.
  split; [|split].
  - intros e ->. reflexivity.
  - intros resp S1 ->. reflexivity.
  - intros S' ->. cbn [try]. rewrite run_vis. unfold has_response, ans_key.
    split; [|split].
    + intros resp ->. reflexivity.
    + intros -> ->. reflexivity.
    + intros uri -> ->. cbn [try]. rewrite run_vis. cbn [fst snd].
      now destruct (status_code _ =? 200)%Z.
Qed.

Lemma perimeter_view_after_evaluation_witness :
  run (perimeter_world restricting_perimeter (Answer None (Some perimeter_uri)) denied)
    (update_security_perimeter "t0" "dialogflow.googleapis.com" (JBool true)
       "p1" "accessPolicies/1")
  = (Returned (Response 403 (Text "denied")),
     [Call (get_service_perimeter_status "t0" "p1" "accessPolicies/1");
      Call (get_service_perimeter_data_uri "t0" "p1" "accessPolicies/1");
      Call (requests_patch perimeter_uri (auth_headers "p1" "t0")
              (JObj [("name", JStr "accessPolicies/1/servicePerimeters/demo");
                     ("status",
                      JObj [("resources", JList [JStr "projects/1"]);
                            ("restrictedServices",
                             JList [JStr "cloudfunctions.googleapis.com";
                                    JStr "storage.googleapis.com";
                                    JStr "dialogflow.googleapis.com"])])])
              [("updateMask", "status.restrictedServices")])]).
Proof.
  apply (proj2 (proj2 (proj2 (proj2
           (perimeter_view_after_evaluation
              (perimeter_world restricting_perimeter (Answer None (Some perimeter_uri))
                 denied)
              "t0" "dialogflow.googleapis.com" (JBool true) "p1" "accessPolicies/1"))
           _ eq_refl)) perimeter_uri eq_refl eq_refl).
Defined.

(** X18.  The two perimeter views differ in the api they name and in nothing
    else.  With a token, a project, an access-policy title that the helper
    resolves and a body that carries a status, each view asks for the token
    and for the policy name and then does what [update_security_perimeter]
    does, for cloudfunctions.googleapis.com in one and for
    dialogflow.googleapis.com in the other. *)
Theorem perimeter_views_delegate
    (w : world) (req : request)
    (token project_id access_policy_title access_policy_name : string) (v : json) :
  w _ get_token = Answer None (Some token) ->
  dict_get "project_id" (args req) = Some project_id ->
  project_id <> "" ->
  dict_get "access_policy_title" (args req) = Some access_policy_title ->
  w _ (get_access_policy_name token access_policy_title project_id)
  = Answer None (Some access_policy_name) ->
  py_getitem (get_json req) "status" = Ok v ->
  let before :=
    [Call get_token; Call (get_access_policy_name token access_policy_title project_id)] in
  let within api :=
    run w (update_security_perimeter token api v project_id access_policy_name) in
  run w (update_security_perimeter_cloudfunctions req)
  = (fst (within "cloudfunctions.googleapis.com"),
     (before ++ snd (within "cloudfunctions.googleapis.com"))%list)
  /\ run w (update_security_perimeter_dialogflow req)
     = (fst (within "dialogflow.googleapis.com"),
        (before ++ snd (within "dialogflow.googleapis.com"))%list).
Proof.
  intros Htok Hproj Hne Htitle Hname Hst before within.
  apply String.eqb_neq in Hne.
  unfold update_security_perimeter_cloudfunctions, update_security_perimeter_dialogflow.
  rewrite !run_vis, Htok. cbn [ans_response ans_key ans_value try].
  rewrite Hproj, Hne. unfold args_item. rewrite Htitle. cbn [try].
  rewrite !run_vis, Hname. cbn [ans_response ans_key ans_value try].
  rewrite Hst. cbn [try fst snd]. split; reflexivity.
Qed.

Lemma perimeter_views_delegate_witness :
  run (perimeter_world restricting_perimeter (Answer None (Some perimeter_uri)) accepted)
    (update_security_perimeter_cloudfunctions (set_status true perimeter_args))
  = (Returned OK200,
     [Call get_token;
      Call (get_access_policy_name "t0" "demo-policy" "p1");
      Call (get_service_perimeter_status "t0" "p1" "accessPolicies/1")]).
Proof.
  apply (proj1 (perimeter_views_delegate
                  (perimeter_world restricting_perimeter
                     (Answer None (Some perimeter_uri)) accepted)
                  (set_status true perimeter_args)
                  "t0" "p1" "demo-policy" "accessPolicies/1" (JBool true)
                  eq_refl eq_refl ltac:(discriminate) eq_refl eq_refl eq_refl)).
Defined.

(** X19.  In the perimeter views the policy name is resolved before the body
    is read.  When the helper answers with an error response, the view
    returns it as it is, the perimeter is not fetched and the body is not
    looked at.  When the name is resolved and reading content['status']
    raises, the exception escapes after those two calls. *)
Theorem policy_name_is_resolved_before_the_body
    (w : world) (req : request) (token project_id access_policy_title : string) :
  w _ get_token = Answer None (Some token) ->
  dict_get "project_id" (args req) = Some project_id ->
  project_id <> "" ->
  dict_get "access_policy_title" (args req) = Some access_policy_title ->
  let resolve := get_access_policy_name token access_policy_title project_id in
  (forall resp,
     ans_response (w _ resolve) = Some resp ->
     run w (update_security_perimeter_cloudfunctions req)
     = (Returned resp, [Call get_token; Call resolve])
     /\ run w (update_security_perimeter_dialogflow req)
        = (Returned resp, [Call get_token; Call resolve]))
  /\ (forall name e,
        w _ resolve = Answer None (Some name) ->
        py_getitem (get_json req) "status" = Raise e ->
        run w (update_security_perimeter_cloudfunctions req)
        = (Uncaught e, [Call get_token; Call resolve])
        /\ run w (update_security_perimeter_dialogflow req)
           = (Uncaught e, [Call get_token; Call resolve])).
Proof.
  intros Htok Hproj Hne Htitle resolve.
  apply String.eqb_neq in Hne.
  unfold update_security_perimeter_cloudfunctions, update_security_perimeter_dialogflow.
  rewrite !run_vis, Htok. cbn [ans_response ans_key ans_value try].
  rewrite Hproj, Hne. unfold args_item. rewrite Htitle. cbn [try].
  rewrite !run_vis. fold resolve. split.
  - intros resp ->. split; reflexivity.
  - intros name e -> ->. split; reflexivity.
Qed.

Lemma policy_name_is_resolved_before_the_body_witness :
  run (perimeter_world restricting_perimeter (Answer None (Some perimeter_uri)) accepted)
    (update_security_perimeter_dialogflow (Request perimeter_args (JObj [])))
  = (Uncaught (KeyError "status"),
     [Call get_token; Call (get_access_policy_name "t0" "demo-policy" "p1")]).
Proof.
  apply (proj2 (policy_name_is_resolved_before_the_body
                  (perimeter_world restricting_perimeter
                     (Answer None (Some perimeter_uri)) accepted)
                  (Request perimeter_args (JObj []))
                  "t0" "p1" "demo-policy"
                  eq_refl eq_refl ltac:(discriminate) eq_refl)
           "accessPolicies/1" (KeyError "status") eq_refl eq_refl).
Defined.

(** ** The fulfillment view *)

(** X20.  The fulfillment view compares nothing with the webhook's current
    state: whenever its lookups succeed it patches the webhook, once.  The
    body is the service-directory form, with the certificate downloaded from
    the bucket and base64-encoded, when the body's status equals True, and
    the generic form otherwise, in which case nothing is downloaded.  The
    trigger uri in the generic form is built from the webhook_name of the
    query; the url that is patched is built from the name the webhooks
    helper resolved.  The view answers 200 when the patch is accepted and
    aborts with the upstream code when it is not. *)
Theorem fulfillment_always_patches
    (py_format : json -> string) (w : world) (req : request)
    (token project_id bucket region webhook_name : string)
    (v agent_name resolved_name : json) :
  fulfillment_request w req token project_id bucket region webhook_name
    v agent_name resolved_name ->
  let trigger :=
    "https://" ++ region ++ "-" ++ project_id ++ ".cloudfunctions.net/" ++ webhook_name in
  let url :=
    "https://" ++ region ++ "-dialogflow.googleapis.com/v3/" ++ py_format resolved_name in
  let lookups :=
    [Call get_token; Call (get_agents token project_id region);
     Call (get_webhooks token agent_name project_id region)] in
  let download := download_as_string project_id token bucket "server.der" in
  let data :=
    if py_eq_bool v true then service_directory project_id region (w _ download)
    else generic_web_service trigger in
  let patch := requests_patch url (auth_headers project_id token) data [] in
  run w (update_service_directory_webhook_fulfillment py_format req)
  = (if (status_code (w _ patch) =? 200)%Z then Returned OK200
     else Aborted (status_code (w _ patch)),
     (lookups ++ (if py_eq_bool v true then [Call download] else []) ++ [Call patch])%list).
Proof.
  intros [Htok Hst Hproj Hne Hbucket Hreg Hhook
            (agents & agent & Hagents & Hagent & Hname)
            (webhooks & webhook_dict & Hwebhooks & Hwebhook & Hresolved)].
  cbn zeta. apply String.eqb_neq in Hne.
  unfold update_service_directory_webhook_fulfillment.
  rewrite run_vis, Htok. cbn [ans_response ans_key ans_value try].
  rewrite Hst. cbn [try]. rewrite Hproj, Hne.
  unfold args_item. rewrite Hbucket, Hreg, Hhook. cbn [try].
  rewrite run_vis, Hagents. cbn [ans_response ans_key ans_value try].
  rewrite Hagent. cbn [try]. rewrite Hname. cbn [try].
  rewrite run_vis, Hwebhooks. cbn [ans_response ans_key ans_value try].
  rewrite Hwebhook. cbn [try]. rewrite Hresolved. cbn [try].
  rewrite run_pbind. unfold webhook_payload, fulfillment_of.
  destruct (py_eq_bool v true).
  - cbn [String.eqb Ascii.eqb Bool.eqb]. cbn [run fst snd app].
    unfold service_directory, DOMAIN.
    now destruct (status_code _ =? 200)%Z.
  - cbn [String.eqb Ascii.eqb Bool.eqb]. cbn [run fst snd app].
    unfold generic_web_service.
    now destruct (status_code _ =? 200)%Z.
Qed.

Lemma fulfillment_request_telecom d :
  fulfillment_request telecom_world (set_status d fulfillment_args)
    "t0" "p1" "b1" "r1" "hook" (JBool d)
    (JStr "projects/p1/locations/r1/agents/a1")
    (JStr "projects/p1/locations/r1/agents/a1/webhooks/w1").
Proof.
  constructor; try reflexivity.
  - discriminate.
  - do 2 eexists. repeat split.
  - do 2 eexists. repeat split.
Defined.

Lemma fulfillment_always_patches_witness :
  run telecom_world
    (update_service_directory_webhook_fulfillment render_name
       (set_status true fulfillment_args))
  = (Returned OK200,
     [Call get_token;
      Call (get_agents "t0" "p1" "r1");
      Call (get_webhooks "t0" (JStr "projects/p1/locations/r1/agents/a1") "p1" "r1");
      Call (download_as_string "p1" "t0" "b1" "server.der");
      Call (requests_patch
              "https://r1-dialogflow.googleapis.com/v3/projects/p1/locations/r1/agents/a1/webhooks/w1"
              (auth_headers "p1" "t0")
              (JObj [("displayName", JStr "cxPrebuiltAgentsTelecom");
                     ("serviceDirectory", JObj
                        [("service",
                          JStr "projects/p1/locations/r1/namespaces/df-namespace/services/df-service");
                         ("genericWebService", JObj
                            [("uri", JStr "https://webhook.internal");
                             ("allowedCaCerts", JList [JStr "TWE="])])])])
              [])]).
Proof.
  apply (fulfillment_always_patches render_name telecom_world
           (set_status true fulfillment_args) "t0" "p1" "b1" "r1" "hook" (JBool true)
           (JStr "projects/p1/locations/r1/agents/a1")
           (JStr "projects/p1/locations/r1/agents/a1/webhooks/w1")
           (fulfillment_request_telecom true)).
Defined.

(** X21.  A lookup of the fulfillment view that fails ends the view before
    anything is downloaded or patched.  An error response of the agents
    helper, or of the webhooks helper, is returned as it is; a list of
    agents without 'Telecommunications' raises the exception of that
    lookup. *)
Theorem fulfillment_lookup_failure_ends_the_view
    (py_format : json -> string) (w : world) (req : request)
    (token project_id bucket region webhook_name : string) (v : json) :
  w _ get_token = Answer None (Some token) ->
  py_getitem (get_json req) "status" = Ok v ->
  dict_get "project_id" (args req) = Some project_id ->
  project_id <> "" ->
  dict_get "bucket" (args req) = Some bucket ->
  dict_get "region" (args req) = Some region ->
  dict_get "webhook_name" (args req) = Some webhook_name ->
  let view := update_service_directory_webhook_fulfillment py_format req in
  let ask_agents := get_agents token project_id region in
  (forall resp,
     ans_response (w _ ask_agents) = Some resp ->
     run w view = (Returned resp, [Call get_token; Call ask_agents]))
  /\ (forall agents e,
        w _ ask_agents = Answer None (Some agents) ->
        py_getitem agents "Telecommunications" = Raise e ->
        run w view = (Uncaught e, [Call get_token; Call ask_agents]))
  /\ (forall agents agent agent_name resp,
        w _ ask_agents = Answer None (Some agents) ->
        py_getitem agents "Telecommunications" = Ok agent ->
        py_getitem agent "name" = Ok agent_name ->
        ans_response (w _ (get_webhooks token agent_name project_id region)) = Some resp ->
        run w view
        = (Returned resp,
           [Call get_token; Call ask_agents;
            Call (get_webhooks token agent_name project_id region)])).
Proof.
  intros Htok Hst Hproj Hne Hbucket Hreg Hhook view ask_agents. subst view.
  apply String.eqb_neq in Hne.
  unfold update_service_directory_webhook_fulfillment.
  rewrite run_vis, Htok. cbn [ans_response ans_key ans_value try].
  rewrite Hst. cbn [try]. rewrite Hproj, Hne.
  unfold args_item. rewrite Hbucket, Hreg, Hhook. cbn [try].
  rewrite run_vis. fold ask_agents. split; [|split].
  - intros resp ->. reflexivity.
  - intros agents e Ha Hg. rewrite Ha. cbn [ans_response ans_key ans_value try].
    rewrite Hg. reflexivity.
  - intros agents agent agent_name resp Ha Hg Hn Hresp. rewrite Ha.
    cbn [ans_response ans_key ans_value try]. rewrite Hg. cbn [try]. rewrite Hn.
    cbn [try]. rewrite run_vis, Hresp. reflexivity.
Qed.

Lemma fulfillment_lookup_failure_ends_the_view_witness :
  run (world_of (answers_for accepted))
    (update_service_directory_webhook_fulfillment render_name
       (set_status true fulfillment_args))
  = (Uncaught (KeyError "Telecommunications"),
     [Call get_token; Call (get_agents "t0" "p1" "r1")]).
Proof.
  apply (proj1 (proj2 (fulfillment_lookup_failure_ends_the_view render_name
                         (world_of (answers_for accepted))
                         (set_status true fulfillment_args)
                         "t0" "p1" "b1" "r1" "hook" (JBool true)
                         eq_refl eq_refl eq_refl ltac:(discriminate)
                         eq_refl eq_refl eq_refl))
           (JObj []) (KeyError "Telecommunications") eq_refl eq_refl).
Defined.

(** ** The certificate's encoding *)

Lemma list_ind3 {A} (P : list A -> Prop) :
  P [] -> (forall x, P [x]) -> (forall x y, P [x; y]) ->
  (forall x y z l, P l -> P (x :: y :: z :: l)) ->
  forall l, P l.
Proof.
  intros H0 H1 H2 H3.
  assert (H : forall l, P l /\ (forall x, P (x :: l)) /\ (forall x y, P (x :: y :: l))).
  { induction l as [|a l (IH0 & IH1 & IH2)]; repeat split; auto. }
  intros l. apply H.
Qed.

Lemma b64_digit_in (n : N) : (n < 64)%N -> In (b64_digit n) b64_alphabet.
Proof.
  intros Hn. unfold b64_digit. apply nth_In.
  change (List.length b64_alphabet) with 64%nat. lia.
Qed.

Lemma b64_digits_of_bytes (x y z : Byte.byte) :
  let a := Byte.to_N x in
  let b := Byte.to_N y in
  let c := Byte.to_N z in
  (a / 4 < 64 /\ (a mod 4) * 16 < 64 /\ (a mod 4) * 16 + b / 16 < 64
   /\ (b mod 16) * 4 < 64 /\ (b mod 16) * 4 + c / 64 < 64 /\ c mod 64 < 64)%N.
Proof.
  intros a b c.
  pose proof (Byte.to_N_bounded x). pose proof (Byte.to_N_bounded y).
  pose proof (Byte.to_N_bounded z). fold a in H. fold b in H0. fold c in H1.
  assert (a / 4 < 64)%N by (apply N.Div0.div_lt_upper_bound; lia).
  assert (b / 16 < 16)%N by (apply N.Div0.div_lt_upper_bound; lia).
  assert (c / 64 < 4)%N by (apply N.Div0.div_lt_upper_bound; lia).
  assert (a mod 4 < 4)%N by (apply N.mod_lt; lia).
  assert (b mod 16 < 16)%N by (apply N.mod_lt; lia).
  assert (c mod 64 < 64)%N by (apply N.mod_lt; lia).
  repeat split; lia.
Qed.

(** X22.  [b64Encode] of n bytes is a str of four characters for every three
    bytes begun, and each of its characters is one of the 64 digits of the
    base64 alphabet or the padding "=": the encoding is ASCII, so the decode
    on line 253 does not raise. *)
Theorem b64Encode_is_padded_ascii (msg_bytes : list Byte.byte) :
  String.length (b64Encode msg_bytes) = 4 * ((List.length msg_bytes + 2) / 3)
  /\ Forall (fun c => In c b64_alphabet \/ c = "="%char)
       (list_ascii_of_string (b64Encode msg_bytes)).
Proof.
  unfold b64Encode. induction msg_bytes as [|x|x y|x y z rest [IHlen IHall]] using list_ind3.
  - split; [reflexivity | constructor].
  - destruct (b64_digits_of_bytes x x x) as (H1 & H2 & _).
    split; [reflexivity|]. cbn [b64encode list_ascii_of_string].
    do 2 (constructor; [left; apply b64_digit_in; assumption|]).
    do 2 (constructor; [right; reflexivity|]). constructor.
  - destruct (b64_digits_of_bytes x y y) as (H1 & _ & H3 & H4 & _).
    split; [reflexivity|]. cbn [b64encode list_ascii_of_string].
    do 3 (constructor; [left; apply b64_digit_in; assumption|]).
    constructor; [right; reflexivity|]. constructor.
  - destruct (b64_digits_of_bytes x y z) as (H1 & _ & H3 & _ & H5 & H6).
    split.
    + cbn [b64encode String.length List.length]. rewrite IHlen.
      replace (S (S (S (List.length rest))) + 2) with (List.length rest + 2 + 1 * 3) by lia.
      rewrite Nat.div_add by discriminate. lia.
    + cbn [b64encode list_ascii_of_string].
      do 4 (constructor; [left; apply b64_digit_in; assumption|]). exact IHall.
Qed.

(** ** What no view does *)

Ltac run_to_end :=
  repeat first
    [ rewrite run_vis; cbn [fst snd]
    | rewrite run_pbind; cbn [fst snd]
    | match goal with
      | |- context [run _ (try ?r _ _)] => destruct r; cbn [try]
      | |- context [run _ (match ?x with _ => _ end)] => destruct x
      end
    | progress cbn [run fst snd app] ].

(** X23.  Whatever the world answers and whatever the request holds, each of
    the five views issues at most one mutation (a POST or a PATCH), and a
    mutation is the last call the view makes: nothing is fetched again,
    retried or undone after it. *)
Theorem a_mutation_is_the_last_call
    (py_format : json -> string) (w : world) (req : request) :
  let tidy (p : prog outcome) :=
    existsb is_mutation (removelast (snd (run w p))) = false in
  tidy (update_webhook_access req)
  /\ tidy (update_webhook_ingress req)
  /\ tidy (update_security_perimeter_cloudfunctions req)
  /\ tidy (update_security_perimeter_dialogflow req)
  /\ tidy (update_service_directory_webhook_fulfillment py_format req).
Proof.
  cbn zeta.
  unfold update_webhook_access, update_webhook_ingress,
    update_security_perimeter_cloudfunctions, update_security_perimeter_dialogflow,
    update_service_directory_webhook_fulfillment, update_security_perimeter,
    webhook_payload.
  repeat split; run_to_end; reflexivity.
Qed.

(** ** Bindings that miss a key *)

Lemma scan_members_without_role d ms found :
  dict_get "role" d = None ->
  foldM (scan_member (JObj d)) found ms
  = if existsb (fun m => py_eq_str m "allUsers") ms
    then Raise (KeyError "role") else Ok found.
Proof.
  intros Hrole. induction ms as [|m ms IH]; cbn [foldM existsb]; [reflexivity|].
  unfold scan_member at 1. cbn [py_getitem]. rewrite Hrole.
  destruct (py_eq_str m "allUsers"); cbn [rbind orb]; [reflexivity | exact IH].
Qed.

Lemma scan_loose_binding b found :
  is_loose_binding b = true ->
  scan_binding found b
  = if lists_allUsers b && negb (has_role b)
    then Raise (KeyError "role") else Ok (found || grants_allUsers b).
Proof.
  intros Hloose. destruct (has_role b) eqn:Hrole.
  - rewrite andb_false_r. apply scan_binding_spec.
    destruct b as [| | | | |?|d]; try discriminate.
    cbn [is_binding is_loose_binding has_role] in *. now rewrite Hrole.
  - rewrite andb_true_r. destruct b as [| | | | |?|d]; try discriminate.
    cbn [is_loose_binding has_role lists_allUsers grants_allUsers] in *.
    unfold dict_has in Hrole. destruct (dict_get "role" d) eqn:Hr; [discriminate|].
    unfold scan_binding. cbn [py_get].
    destruct (dict_get "members" d) as [[| | | | |ms|]|]; try discriminate;
      cbn [rbind py_iter].
    + rewrite (scan_members_without_role d ms found Hr).
      destruct (existsb _ ms); [reflexivity | now rewrite orb_false_r].
    + cbn. now rewrite orb_false_r.
Qed.

(** X24.  The scan looks up the role of a binding only when the binding
    lists "allUsers".  On a policy whose bindings are dicts that may lack
    their 'role', the scan raises KeyError('role') exactly when some binding
    lists "allUsers" and has no role; otherwise it tells whether "allUsers"
    is a member of an invoker binding, and a binding without a role that
    does not list "allUsers" goes unnoticed. *)
Theorem scan_needs_a_role_only_where_allUsers_is_listed
    (fields : dict json) (bs : list json) :
  dict_get "bindings" fields = Some (JList bs) ->
  forallb is_loose_binding bs = true ->
  allUsers_is_invoker_member (JObj fields)
  = if existsb (fun b => lists_allUsers b && negb (has_role b)) bs
    then Raise (KeyError "role")
    else Ok (allUsersIsInvoker (JObj fields)).
Proof.
  intros Hbs Hloose. unfold allUsers_is_invoker_member, allUsersIsInvoker.
  cbn [py_get]. rewrite Hbs. cbn [rbind py_iter].
  enough (H : forall found,
    foldM scan_binding found bs
    = if existsb (fun b => lists_allUsers b && negb (has_role b)) bs
      then Raise (KeyError "role")
      else Ok (found || existsb grants_allUsers bs)) by apply (H false).
  clear Hbs. induction bs as [|b bs IH]; intros found; cbn [foldM existsb forallb] in *.
  - now rewrite orb_false_r.
  - apply andb_prop in Hloose as [Hb Hrest].
    rewrite (scan_loose_binding b found Hb).
    destruct (lists_allUsers b && negb (has_role b)); cbn [rbind orb]; [reflexivity|].
    rewrite (IH Hrest). destruct (existsb _ bs); [reflexivity|].
    now rewrite orb_assoc.
Qed.

Lemma scan_needs_a_role_only_where_allUsers_is_listed_witness :
  allUsers_is_invoker_member
    (JObj [("bindings",
            JList [JObj [("members", JList [JStr "user:a@example.com"])];
                   fresh_invoker_binding [JStr "allUsers"]])])
  = Ok true
  /\ allUsers_is_invoker_member
       (JObj [("bindings",
               JList [fresh_invoker_binding [JStr "allUsers"];
                      JObj [("members", JList [JStr "allUsers"])]])])
     = Raise (KeyError "role").
Proof.
  split.
  - apply (scan_needs_a_role_only_where_allUsers_is_listed
             [("bindings",
               JList [JObj [("members", JList [JStr "user:a@example.com"])];
                      fresh_invoker_binding [JStr "allUsers"]])]
             [JObj [("members", JList [JStr "user:a@example.com"])];
              fresh_invoker_binding [JStr "allUsers"]]
             eq_refl eq_refl).
  - apply (scan_needs_a_role_only_where_allUsers_is_listed
             [("bindings",
               JList [fresh_invoker_binding [JStr "allUsers"];
                      JObj [("members", JList [JStr "allUsers"])]])]
             [fresh_invoker_binding [JStr "allUsers"];
              JObj [("members", JList [JStr "allUsers"])]]
             eq_refl eq_refl).
Defined.

Lemma grant_binding_or_raise b :
  is_binding b = true ->
  grant_binding b
  = if memberless_invoker b then Raise (KeyError "members")
    else Ok (is_invoker_binding b, with_allUsers b).
Proof.
  destruct b as [| | | | |?|d]; try discriminate.
  unfold memberless_invoker.
  cbn [is_binding has_members is_invoker_binding with_allUsers].
  unfold dict_has. destruct (dict_get "role" d) as [role|] eqn:Hrole; [|discriminate].
  cbn [andb]. unfold grant_binding. cbn [py_getitem]. rewrite Hrole. cbn [rbind].
  destruct (dict_get "members" d) as [[| | | | |ms|]|] eqn:Hms; try discriminate; intros _;
    destruct (py_eq_str role INVOKER); reflexivity.
Qed.

Lemma grant_bindings_or_raise bs : forall acc,
  forallb is_binding bs = true ->
  grant_bindings acc bs
  = if existsb memberless_invoker bs then Raise (KeyError "members")
    else Ok (existsb is_invoker_binding bs || acc, map with_allUsers bs).
Proof.
  induction bs as [|b bs IH]; intros acc; cbn [forallb grant_bindings existsb map].
  - reflexivity.
  - intros [Hb Hbs]%andb_prop. rewrite (grant_binding_or_raise b Hb).
    destruct (memberless_invoker b); cbn [rbind orb]; [reflexivity|].
    rewrite (IH _ Hbs). destruct (existsb memberless_invoker bs); cbn [rbind]; [reflexivity|].
    do 2 f_equal. destruct (is_invoker_binding b), (existsb is_invoker_binding bs), acc;
      reflexivity.
Qed.

(** X25.  Where the evaluator raises on an IAM policy (every binding a dict
    with a 'role', its 'members' a list when present).  Asked to restrict,
    it never raises.  Asked to open a policy in which "allUsers" is not an
    invoker member, it raises KeyError('members') exactly when some invoker
    binding has no 'members' key, and computes a policy otherwise; a binding
    of another role may lack its members. *)
Theorem opening_raises_iff_an_invoker_binding_lacks_members
    (fields : dict json) (bs : list json) :
  is_policy (JObj fields) = true ->
  dict_get "bindings" fields = Some (JList bs) ->
  (exists verdict, invoker_binding_evaluator (JBool true) (JObj fields) = Ok verdict)
  /\ (allUsersIsInvoker (JObj fields) = false ->
      if existsb memberless_invoker bs
      then invoker_binding_evaluator (JBool false) (JObj fields)
           = Raise (KeyError "members")
      else exists P', invoker_binding_evaluator (JBool false) (JObj fields)
                      = Ok (Mutate P')).
Proof.
  intros HP Hbs. pose proof (scan_policy_spec _ HP) as Hscan. split.
  - unfold invoker_binding_evaluator. rewrite Hscan. cbn [rbind].
    destruct (no_change_needed _ _); [eauto|]. cbn [truthy].
    destruct (remove_allUsers_total _ HP) as (P' & -> & _). cbn [rbind]. eauto.
  - intros Hfound. unfold invoker_binding_evaluator. rewrite Hscan, Hfound.
    cbn [rbind no_change_needed truthy negb andb orb].
    cbn [is_policy] in HP. rewrite Hbs in HP.
    unfold add_allUsers. cbn [py_contains]. unfold dict_has. rewrite Hbs.
    cbn [rbind py_getitem]. rewrite Hbs. cbn [rbind py_len].
    destruct bs as [|b0 rest].
    + cbn [List.length Nat.eqb rbind py_setitem py_getitem existsb]. eexists.
      rewrite dict_get_set_same. cbn [rbind py_iter]. cbn. reflexivity.
    + cbn [List.length Nat.eqb rbind py_getitem]. rewrite Hbs. cbn [rbind py_iter].
      rewrite (grant_bindings_or_raise (b0 :: rest) false HP).
      destruct (existsb memberless_invoker (b0 :: rest)); cbn [rbind]; [reflexivity|].
      rewrite orb_false_r. unfold edited_in_place, dict_has. rewrite Hbs.
      destruct (existsb is_invoker_binding (b0 :: rest)); [eexists; reflexivity|]. eexists.
      cbn [py_getitem]. rewrite dict_get_set_same. cbn [rbind py_append py_setitem].
      reflexivity.
Qed.

Lemma opening_raises_iff_an_invoker_binding_lacks_members_witness :
  invoker_binding_evaluator (JBool false)
    (JObj [("bindings",
            JList [JObj [("role", JStr "roles/viewer")];
                   fresh_invoker_binding [];
                   JObj [("role", JStr INVOKER)]])])
  = Raise (KeyError "members").
Proof.
  apply (proj2 (opening_raises_iff_an_invoker_binding_lacks_members
                  [("bindings",
                    JList [JObj [("role", JStr "roles/viewer")];
                           fresh_invoker_binding [];
                           JObj [("role", JStr INVOKER)]])]
                  [JObj [("role", JStr "roles/viewer")];
                   fresh_invoker_binding [];
                   JObj [("role", JStr INVOKER)]]
                  eq_refl eq_refl) eq_refl).
Defined.

(** ** A status that is not a boolean *)

(** X26.  The views do not read the body's status in the same way: the
    webhook views take its truth value, the perimeter evaluator compares it
    with False, the fulfillment view compares it with True.  A status that
    is false as a truth value without being equal to False (null, the empty
    str, the empty list, the empty dict) therefore opens the webhook (the
    evaluator and the ingress setting are those of false, the fulfillment
    mode is the generic one) and restricts the perimeter (the evaluator is
    that of true). *)
Theorem falsy_status_opens_webhook_and_restricts_perimeter
    (v P S : json) (api : string) :
  truthy v = false ->
  py_eq_bool v false = false ->
  invoker_binding_evaluator v P = invoker_binding_evaluator (JBool false) P
  /\ ingress_settings_of v = "ALLOW_ALL"
  /\ fulfillment_of v = "generic-web-service"
  /\ update_service_perimeter_status_inplace api v S
     = update_service_perimeter_status_inplace api (JBool true) S.
Proof.
  intros Hfalse Hne.
  unfold invoker_binding_evaluator, no_change_needed, ingress_settings_of,
    update_service_perimeter_status_inplace, fulfillment_of.
  rewrite Hfalse, Hne. cbn [truthy py_eq_bool Bool.eqb].
  repeat split.
  destruct v as [|[]|z| | | |]; try discriminate; try reflexivity.
  - cbn [truthy] in Hfalse. apply negb_false_iff, Z.eqb_eq in Hfalse. now subst z.
  - exfalso. cbn [truthy py_eq_bool] in Hfalse, Hne.
    apply negb_false_iff in Hfalse. congruence.
Qed.

Lemma falsy_status_opens_webhook_and_restricts_perimeter_witness :
  invoker_binding_evaluator JNull (JObj []) = Ok (Mutate public_policy)
  /\ update_service_perimeter_status_inplace "dialogflow.googleapis.com" JNull
       restricting_perimeter
     = update_service_perimeter_status_inplace "dialogflow.googleapis.com" (JBool true)
         restricting_perimeter.
Proof.
  pose proof (falsy_status_opens_webhook_and_restricts_perimeter
                JNull (JObj []) restricting_perimeter "dialogflow.googleapis.com"
                eq_refl eq_refl) as (He & _ & _ & Hp).
  split; [exact He | exact Hp].
Defined.
